(** * mssql_mcp_server: the query gateway of [server.py], embedded in Rocq

    The development follows the source file top to bottom:
    - [Chr], [Str], [Ustr]: the [str] methods the gateway calls (slicing,
      [find], [split], [join], [strip], [upper], [replace], ...);
    - [Re]: the two regular expressions of the file, as backtracking
      matchers in continuation-passing style;
    - [validate_table_name], [get_db_config], [get_command],
      [is_select_query];
    - the pyodbc collaborator as a scripted database with an event log, and
      the handlers [list_resources], [read_resource], [call_tool] in an
      exception-and-log monad;
    - [Spec]: the vocabulary of the specification, and [Ex]: concrete
      environments and databases;
    - the theorems, in the order identifier validation, statement
      classification, configuration, handlers.

    Modelling choices.  A Python [str] is a Rocq [string] and a character
    is a code point below 256; [str.upper()] can leave that range and can
    lengthen a text, so its result is a list of code points ([Ustr]).
    [os.environ] and the [arguments] of a tool call are finite maps from
    names to strings; [pyodbc.drivers()] is a list of names.  The URL
    validation that building a [Resource] runs is a collaborator
    ([mcp_types]), like the database.  Exceptions are values of [exn]; a
    function that can raise returns a [result].  Calls of the logger are
    left out: they write to the log and change no outcome; the one
    exception is the start-up line of [main], which [main_startup]
    returns. *)

From Stdlib Require Import ZArith Ascii String DecimalString Bool Lia.
From stdpp Require Import base option list strings gmap.

(* ===================================================================== *)
(** ** Characters *)

Module Chr.

Local Open Scope char_scope.

Definition code (c : ascii) : nat := nat_of_ascii c.

Definition in_range (lo hi : ascii) (c : ascii) : bool :=
  (code lo <=? code c)%nat && (code c <=? code hi)%nat.

Definition eqb (a b : ascii) : bool := Ascii.eqb a b.

(** The character class [[a-zA-Z0-9_]] of the identifier pattern. *)
Definition is_word (c : ascii) : bool :=
  in_range "a" "z" c || in_range "A" "Z" c || in_range "0" "9" c || eqb c "_".

(** [str.isspace] on one character: what [str.strip()] and
    [str.split()] treat as white space.  Below 256 these are tab, line
    feed, vertical tab, form feed, carriage return, the four separators
    0x1c-0x1f, the space, NEL (0x85) and the no-break space (0xa0). *)
Definition is_space (c : ascii) : bool :=
  in_range "009" "013" c || in_range "028" "031" c || eqb c " "
  || eqb c "133" || eqb c "160".

(** [str.upper] on one character, as code points.  Below 256 the lower
    case letters are a-z and 0xe0-0xfe without the division sign (0xf7),
    each 32 above its capital, and three more: the micro sign (0xb5), whose
    capital is the Greek letter U+039C, the sharp s (0xdf), whose capital
    is the two letters SS, and 0xff, whose capital is U+0178. *)
Definition upper (c : ascii) : list N :=
  let n := N_of_ascii c in
  if in_range "a" "z" c then [(n - 32)%N]
  else if eqb c "181" then [924%N]
  else if eqb c "223" then [83%N; 83%N]
  else if eqb c "255" then [376%N]
  else if in_range "224" "254" c && negb (eqb c "247") then [(n - 32)%N]
  else [n].

(** [str.lower] on one character.  Below 256 the capitals are A-Z and
    0xc0-0xde without the multiplication sign (0xd7). *)
Definition lower (c : ascii) : ascii :=
  if in_range "A" "Z" c || in_range "192" "222" c && negb (eqb c "215")
  then ascii_of_nat (code c + 32) else c.

Definition newline : ascii := "010".

#[global] Arguments eqb : simpl never.
#[global] Arguments is_word : simpl never.
#[global] Arguments is_space : simpl never.
#[global] Arguments upper : simpl never.
#[global] Arguments lower : simpl never.

End Chr.

(* ===================================================================== *)
(** ** Strings: the [str] methods used by the gateway *)

Module Str.

Fixpoint map (f : ascii -> ascii) (s : string) : string :=
  match s with
  | EmptyString => EmptyString
  | String c s' => String (f c) (map f s')
  end.

Definition lower : string -> string := map Chr.lower.

(** the code points of a text *)
Fixpoint codes (s : string) : list N :=
  match s with
  | EmptyString => []
  | String c s' => N_of_ascii c :: codes s'
  end.

(** [s.upper()], as code points *)
Fixpoint upper (s : string) : list N :=
  match s with
  | EmptyString => []
  | String c s' => Chr.upper c ++ upper s'
  end.

Definition eqb (a b : string) : bool := String.eqb a b.

(** [s.startswith(p)] *)
Fixpoint startswith (p s : string) : bool :=
  match p, s with
  | EmptyString, _ => true
  | String a p', String b s' => Chr.eqb a b && startswith p' s'
  | String _ _, EmptyString => false
  end.

(** [s[n:]] and [s[:n]] for a non-negative [n] *)
Fixpoint drop (n : nat) (s : string) : string :=
  match n, s with
  | O, _ => s
  | S n', String _ s' => drop n' s'
  | S _, EmptyString => EmptyString
  end.

Fixpoint take (n : nat) (s : string) : string :=
  match n, s with
  | O, _ => EmptyString
  | S n', String c s' => String c (take n' s')
  | S _, EmptyString => EmptyString
  end.

(** [s.find(p)]: the least index at which [p] occurs, [None] for -1 *)
Fixpoint find (p s : string) : option nat :=
  if startswith p s then Some O
  else match s with
       | EmptyString => None
       | String _ s' => S <$> find p s'
       end.

(** [p in s] *)
Definition contains (p s : string) : bool :=
  match find p s with Some _ => true | None => false end.

(** [s.split(sep)] for a one-character separator: never empty. *)
Fixpoint split (sep : ascii) (s : string) : list string :=
  match s with
  | EmptyString => [EmptyString]
  | String c s' =>
      if Chr.eqb c sep then EmptyString :: split sep s'
      else match split sep s' with
           | hd :: tl => String c hd :: tl
           | [] => [String c EmptyString]
           end
  end.

(** [sep.join(l)] *)
Fixpoint join (sep : string) (l : list string) : string :=
  match l with
  | [] => EmptyString
  | [x] => x
  | x :: tl => x +:+ sep +:+ join sep tl
  end.

(** [s.lstrip()], [s.rstrip()], [s.strip()] *)
Fixpoint lstrip (s : string) : string :=
  match s with
  | String c s' => if Chr.is_space c then lstrip s' else s
  | EmptyString => EmptyString
  end.

Fixpoint rstrip (s : string) : string :=
  match s with
  | EmptyString => EmptyString
  | String c s' =>
      match rstrip s' with
      | EmptyString => if Chr.is_space c then EmptyString else String c EmptyString
      | r => String c r
      end
  end.

Definition strip (s : string) : string := rstrip (lstrip s).

(** [s.split()]: the maximal runs of characters that are not white
    space, in order.  [word] holds the run being read, reversed. *)
Fixpoint rev_string (acc s : string) : string :=
  match s with
  | EmptyString => acc
  | String c s' => rev_string (String c acc) s'
  end.

Fixpoint split_ws_from (word : string) (s : string) : list string :=
  match s with
  | EmptyString =>
      match word with EmptyString => [] | _ => [rev_string EmptyString word] end
  | String c s' =>
      if Chr.is_space c then
        match word with
        | EmptyString => split_ws_from EmptyString s'
        | _ => rev_string EmptyString word :: split_ws_from EmptyString s'
        end
      else split_ws_from (String c word) s'
  end.

Definition split_ws (s : string) : list string := split_ws_from EmptyString s.

(** [s.replace(old, "")] for a non-empty [old]: every occurrence, left
    to right, without overlap.  [skip] counts the characters of an
    occurrence still to be dropped. *)
Fixpoint remove_from (old : string) (skip : nat) (s : string) : string :=
  match s with
  | EmptyString => EmptyString
  | String c s' =>
      match skip with
      | S k => remove_from old k s'
      | O => if startswith old s then remove_from old (String.length old - 1) s'
             else String c (remove_from old O s')
      end
  end.

Definition remove (old s : string) : string := remove_from old O s.

(** [str(n)] for an [int] *)
Definition of_Z (z : Z) : string := NilZero.string_of_int (Z.to_int z).

End Str.

(* ===================================================================== *)
(** ** Texts as code points: what the gateway does with [s.upper()] *)

Module Ustr.

(** [a == b] *)
Fixpoint eqb (a b : list N) : bool :=
  match a, b with
  | [], [] => true
  | x :: a', y :: b' => N.eqb x y && eqb a' b'
  | _, _ => false
  end.

Fixpoint startswith (p s : list N) : bool :=
  match p, s with
  | [], _ => true
  | x :: p', y :: s' => N.eqb x y && startswith p' s'
  | _ :: _, [] => false
  end.

Fixpoint find (p s : list N) : option nat :=
  if startswith p s then Some O
  else match s with
       | [] => None
       | _ :: s' => S <$> find p s'
       end.

(** [p in s] *)
Definition contains (p s : list N) : bool :=
  match find p s with Some _ => true | None => false end.

End Ustr.

(* ===================================================================== *)
(** ** Regular expressions

    A pattern is a backtracking matcher in continuation-passing style: it
    is given the rest of the pattern as a continuation and the text still
    to be read, tries its alternatives in the priority order of Python's
    [re] module, and returns what the first successful alternative
    leaves unread. *)

Module Re.

Definition cont := string -> option string.
Definition matcher := cont -> string -> option string.

Definition first_of (a b : option string) : option string :=
  match a with Some r => Some r | None => b end.

(** a literal character *)
Definition lit (c : ascii) : matcher := fun k s =>
  match s with
  | String c' s' => if Chr.eqb c' c then k s' else None
  | EmptyString => None
  end.

(** [r1 r2] *)
Definition seq (m1 m2 : matcher) : matcher := fun k => m1 (m2 k).

(** [(r)?], greedy: with the group first, then without it *)
Definition opt (m : matcher) : matcher := fun k s => first_of (m k s) (k s).

(** [[class]+], greedy: the longest run first, giving back one character
    at a time *)
Fixpoint plus (p : ascii -> bool) (k : cont) (s : string) : option string :=
  match s with
  | String c s' => if p c then first_of (plus p k s') (k s') else None
  | EmptyString => None
  end.

(** [.*?] under [re.DOTALL], lazy: the shortest run first *)
Fixpoint lazy_any (k : cont) (s : string) : option string :=
  first_of (k s)
           (match s with
            | String _ s' => lazy_any k s'
            | EmptyString => None
            end).

(** [$] without [re.MULTILINE]: at the end of the text, and also just
    before a line feed that is the last character of the text *)
Definition eol : matcher := fun k s =>
  match s with
  | EmptyString => k s
  | String c EmptyString => if Chr.eqb c Chr.newline then k s else None
  | _ => None
  end.

(** [re.match(r, s)]: the pattern is tried at index 0 only, which is
    where a leading [^] holds; the result is the unread rest. *)
Definition match_ (m : matcher) (s : string) : option string := m Some s.

(** [re.sub(r, "", s)] for a pattern that never matches the empty
    string: scan left to right, drop each match, resume after it.
    [skip] counts the characters of the current match still to drop. *)
Fixpoint sub_from (m : matcher) (skip : nat) (s : string) : string :=
  match s with
  | EmptyString => EmptyString
  | String c s' =>
      match skip with
      | S k => sub_from m k s'
      | O => match m Some s with
             | Some rest =>
                 sub_from m (String.length s - String.length rest - 1) s'
             | None => String c (sub_from m O s')
             end
      end
  end.

Definition sub (m : matcher) (s : string) : string := sub_from m O s.

(** [r'^[a-zA-Z0-9_]+(\.[a-zA-Z0-9_]+)?$'] *)
Definition table_name : matcher :=
  seq (plus Chr.is_word)
      (seq (opt (seq (lit ".") (plus Chr.is_word))) eol)%char.

(** [r'/\*.*?\*/'] with [flags=re.DOTALL] *)
Definition block_comment : matcher :=
  (seq (lit "/") (seq (lit "*") (seq lazy_any (seq (lit "*") (lit "/")))))%char.

End Re.

(* ===================================================================== *)
(** ** Exceptions and results *)

Inductive exn : Type :=
| ValueError (msg : string)
| RuntimeError (msg : string)
| TypeError (msg : string)
| IndexError (msg : string)
| ValidationError (msg : string)  (* pydantic.ValidationError *)
| DatabaseError (msg : string).   (* pyodbc.Error and its subclasses *)

(** [str(e)] *)
Definition exn_str (e : exn) : string :=
  match e with
  | ValueError m | RuntimeError m | TypeError m | IndexError m
  | ValidationError m | DatabaseError m => m
  end.

Inductive result (A : Type) : Type :=
| Ok (a : A)
| Raise (e : exn).
Arguments Ok {A} a.
Arguments Raise {A} e.

Definition is_ok {A} (r : result A) : bool :=
  match r with Ok _ => true | Raise _ => false end.

#[global] Instance result_ret : MRet result := fun A a => Ok a.
#[global] Instance result_bind : MBind result := fun A B f r =>
  match r with Ok a => f a | Raise e => Raise e end.

(* ===================================================================== *)
(** ** validate_table_name (server.py, lines 17-30) *)

Definition validate_table_name (table_name : string) : result string :=
  match Re.match_ Re.table_name table_name with
  | None => Raise (ValueError ("Invalid table name: " +:+ table_name))
  | Some _ =>
      let parts := Str.split "."%char table_name in
      match parts with
      | [p0; p1] => Ok ("[" +:+ p0 +:+ "].[" +:+ p1 +:+ "]")
      | _ => Ok ("[" +:+ table_name +:+ "]")
      end
  end.

(* ===================================================================== *)
(** ** The environment and the driver registry

    [os.environ] is a finite map from names to values; [pyodbc.drivers()]
    is the list of the installed ODBC driver names, in registry order. *)

Definition getenv (env : gmap string string) (name : string) : option string :=
  env !! name.

Definition getenv_default (env : gmap string string) (name dflt : string) : string :=
  default dflt (env !! name).

(** Python's truth value of an optional string: [None] and [""] are false. *)
Definition truthy (o : option string) : bool :=
  match o with
  | Some (String _ _) => true
  | Some EmptyString | None => false
  end.

(* ===================================================================== *)
(** ** get_db_config (server.py, lines 32-112) *)

Record db_config : Type := {
  conn_string : string;
  server : string;
  database : string;
  user : string;
  port : string
}.

Definition localdb_prefix : string := "(localdb)\".

(** lines 35 and 46-48: the host, with the LocalDB form rebuilt *)
Definition resolved_server (env : gmap string string) : string :=
  let server := getenv_default env "MSSQL_SERVER" "localhost" in
  if Str.startswith localdb_prefix server then
    let instance_name := Str.remove localdb_prefix server in
    localdb_prefix +:+ instance_name
  else server.

(** line 52 *)
Definition use_windows_auth (env : gmap string string) : bool :=
  Str.eqb (Str.lower (getenv_default env "MSSQL_WINDOWS_AUTH" "false")) "true".

(** line 55 *)
Definition sql_server_drivers (drivers : list string) : list string :=
  filter (λ d, Is_true (Str.contains "SQL Server" d)) drivers.

(** line 90 *)
Definition is_azure (server : string) : bool :=
  Str.contains ".database.windows.net" server.

Definition missing_configuration : exn :=
  ValueError "Missing required database configuration".

Definition no_driver : exn :=
  RuntimeError "No SQL Server ODBC driver found. Please install ODBC Driver for SQL Server.".

(** lines 55-101: the list [conn_parts], in the order of the appends *)
Definition conn_parts (env : gmap string string) (drivers : list string)
  : result (list string) :=
  let server := resolved_server env in
  let database := getenv env "MSSQL_DATABASE" in
  let user := getenv env "MSSQL_USER" in
  let password := getenv env "MSSQL_PASSWORD" in
  let port := getenv_default env "MSSQL_PORT" "1433" in
  match sql_server_drivers drivers with
  | [] => Raise no_driver
  | driver :: _ =>
      let parts := ["DRIVER={" +:+ driver +:+ "}"] in
      let parts :=
        if truthy (Some port) && negb (Str.eqb port "1433")
           && negb (Str.startswith "(localdb)" server)
        then parts ++ ["SERVER=" +:+ server +:+ "," +:+ port]
        else parts ++ ["SERVER=" +:+ server] in
      if negb (truthy database) then Raise missing_configuration
      else
        let parts := parts ++ ["DATABASE=" +:+ default "" database] in
        parts ←
          (if use_windows_auth env then Ok (parts ++ ["Trusted_Connection=yes"])
           else if negb (truthy user) || negb (truthy password)
                then Raise missing_configuration
                else Ok (parts ++ ["UID=" +:+ default "" user;
                                   "PWD=" +:+ default "" password]));
        if is_azure server then
          let encrypt :=
            Str.eqb (Str.lower (getenv_default env "MSSQL_ENCRYPT" "true")) "true" in
          if encrypt
          then Ok (parts ++ ["Encrypt=yes"; "TrustServerCertificate=no"])
          else Ok parts
        else
          let encrypt_str := getenv_default env "MSSQL_ENCRYPT" "false" in
          if Str.eqb (Str.lower encrypt_str) "true"
          then Ok (parts ++ ["Encrypt=yes"; "TrustServerCertificate=yes"])
          else Ok parts
  end.

(** lines 103-112: the returned dictionary *)
Definition get_db_config (env : gmap string string) (drivers : list string)
  : result db_config :=
  parts ← conn_parts env drivers;
  Ok {| conn_string := Str.join ";" parts;
        server := resolved_server env;
        database := default "" (getenv env "MSSQL_DATABASE");
        user := if use_windows_auth env then "Windows Auth"
                else default "" (getenv env "MSSQL_USER");
        port := getenv_default env "MSSQL_PORT" "1433" |}.

(** ** get_command (lines 114-116) *)
Definition get_command (env : gmap string string) : string :=
  getenv_default env "MSSQL_COMMAND" "execute_sql".

(* ===================================================================== *)
(** ** is_select_query (lines 118-140) *)

Definition nl : string := String Chr.newline EmptyString.

(** lines 124 and 127-136: the two comment-stripping passes *)
Definition strip_block_comments (query : string) : string :=
  Re.sub Re.block_comment query.

Definition strip_line_comment (line : string) : string :=
  match Str.find "--" line with
  | Some comment_pos => Str.take comment_pos line
  | None => line
  end.

Definition strip_line_comments (query_cleaned : string) : string :=
  let lines := Str.split Chr.newline query_cleaned in
  let cleaned_lines := strip_line_comment <$> lines in
  Str.join nl cleaned_lines.

Definition strip_comments (query : string) : string :=
  strip_line_comments (strip_block_comments query).

(** a text without a line feed: [split] on line feeds returns it whole *)
Definition single_line (l : string) : Prop := Str.split Chr.newline l = [l].

(** line 139.  [split()] of a text that [strip()] leaves non-empty has a
    first element ([split_ws_strip_nonempty] below), so the default of
    [hd] is never returned. *)
Definition first_word (query_cleaned : string) : string :=
  match Str.strip query_cleaned with
  | EmptyString => EmptyString
  | stripped => hd EmptyString (Str.split_ws stripped)
  end.

Definition is_select_query (query : string) : bool :=
  let query_cleaned := strip_comments query in
  Ustr.eqb (Str.upper (first_word query_cleaned)) (Str.codes "SELECT").

(* ===================================================================== *)
(** ** The database collaborator (pyodbc)

    One call of a handler talks to one scripted database: the record says
    how each driver call of that conversation ends.  A cell of a fetched
    row is either a [str] or another Python value, kept as the name of its
    type and its [str()] text. *)

Inductive cell : Type :=
| CStr (s : string)
| CVal (type_name repr : string).

(** [str(c)] *)
Definition cell_str (c : cell) : string :=
  match c with CStr s | CVal _ s => s end.

Definition row : Type := list cell.

Record pyodbc : Type := {
  db_connect : string -> result unit;             (* pyodbc.connect(conn_string) *)
  db_cursor : result unit;                        (* conn.cursor() *)
  db_execute : string -> result unit;             (* cursor.execute(sql) *)
  db_description : string -> option (list string);(* the column names, None without a result set *)
  db_fetchall : string -> result (list row);      (* cursor.fetchall() *)
  db_commit : result unit;                        (* conn.commit() *)
  db_rowcount : string -> Z;                      (* cursor.rowcount *)
  db_cursor_close : result unit;                  (* cursor.close() *)
  db_conn_close : result unit                     (* conn.close() *)
}.

(** What a handler did to the database, in order.  A driver call that
    raises leaves no event. *)
Inductive event : Type :=
| EvConnect (conn_string : string)
| EvCursor
| EvExecute (sql : string)
| EvFetchall
| EvCommit
| EvCursorClose
| EvConnClose.

(** Handlers run in an exception monad that carries the event log. *)
Definition M (A : Type) : Type := list event -> result A * list event.

#[global] Instance M_ret : MRet M := fun A a log => (Ok a, log).
#[global] Instance M_bind : MBind M := fun A B f m log =>
  match m log with
  | (Ok a, log') => f a log'
  | (Raise e, log') => (Raise e, log')
  end.

Definition raise {A} (e : exn) : M A := fun log => (Raise e, log).

Definition lift {A} (r : result A) : M A := fun log => (r, log).

(** [try: body / except Exception as e: handler e] *)
Definition try_except {A} (body : M A) (handler : exn -> M A) : M A := fun log =>
  match body log with
  | (Ok a, log') => (Ok a, log')
  | (Raise e, log') => handler e log'
  end.

(** a driver call: logged when it returns *)
Definition call {A} (ev : event) (r : result A) : M A := fun log =>
  match r with
  | Ok a => (Ok a, log ++ [ev])
  | Raise e => (Raise e, log)
  end.

Definition run {A} (m : M A) : result A * list event := m [].

(** [row[0]] *)
Definition row_first (r : row) : result cell :=
  match r with
  | c :: _ => Ok c
  | [] => Raise (IndexError "tuple index out of range")
  end.

(** [[desc[0] for desc in cursor.description]] *)
Definition column_names (description : option (list string)) : result (list string) :=
  match description with
  | Some columns => Ok columns
  | None => Raise (TypeError "'NoneType' object is not iterable")
  end.

(** [sep.join(items)] on fetched cells: every item has to be a [str];
    [index] is the position of the first item of [items] *)
Fixpoint all_str_from (index : nat) (items : list cell) : result (list string) :=
  match items with
  | [] => Ok []
  | CStr s :: tl => tl' ← all_str_from (S index) tl; Ok (s :: tl')
  | CVal type_name _ :: _ =>
      Raise (TypeError ("sequence item " +:+ Str.of_Z (Z.of_nat index)
                        +:+ ": expected str instance, " +:+ type_name +:+ " found"))
  end.

Definition all_str (items : list cell) : result (list string) :=
  all_str_from 0 items.

(** [",".join(map(str, row))] *)
Definition format_row (r : row) : string := Str.join "," (cell_str <$> r).

(** [[",".join(columns)] + result], joined by line feeds *)
Definition format_table (columns : list string) (rows : list row) : string :=
  Str.join nl (Str.join "," columns :: (format_row <$> rows)).

(* ===================================================================== *)
(** ** list_resources (lines 145-176) *)

Record Resource : Type := {
  uri : string;
  name : string;
  mimeType : string;
  description : string
}.

Definition list_tables_sql : string :=
  nl +:+ "            SELECT TABLE_NAME " +:+
  nl +:+ "            FROM INFORMATION_SCHEMA.TABLES " +:+
  nl +:+ "            WHERE TABLE_TYPE = 'BASE TABLE'" +:+
  nl +:+ "        ".

(** [Resource] is a pydantic model of [mcp.types]: building one validates
    the [uri] argument as a URL.  [AnyUrl] is that validation: it raises on
    a text that is no URL, and returns the text of the URL it has built,
    which is the [uri] of the resource. *)
Record mcp_types : Type := {
  AnyUrl : string -> result string
}.

(** [Resource(uri=..., name=..., mimeType=..., description=...)] for one
    fetched row *)
Definition table_resource (types : mcp_types) (table : row) : result Resource :=
  t0 ← row_first table;
  url ← AnyUrl types ("mssql://" +:+ cell_str t0 +:+ "/data");
  Ok {| uri := url;
        name := "Table: " +:+ cell_str t0;
        mimeType := "text/plain";
        description := "Data in table: " +:+ cell_str t0 |}.

(** the block under [try:] *)
Definition list_resources_body (db : pyodbc) (types : mcp_types)
    (config : db_config) : M (list Resource) :=
  call (EvConnect (conn_string config)) (db_connect db (conn_string config));;
  call EvCursor (db_cursor db);;
  call (EvExecute list_tables_sql) (db_execute db list_tables_sql);;
  tables ← call EvFetchall (db_fetchall db list_tables_sql);
  resources ← lift (mapM (table_resource types) tables);
  call EvCursorClose (db_cursor_close db);;
  call EvConnClose (db_conn_close db);;
  mret resources.

Definition list_resources (env : gmap string string) (drivers : list string)
    (db : pyodbc) (types : mcp_types) : M (list Resource) :=
  config ← lift (get_db_config env drivers);
  try_except (list_resources_body db types config) (fun e => mret []).

(* ===================================================================== *)
(** ** read_resource (lines 178-208) *)

Definition read_resource_body (db : pyodbc) (config : db_config) (table : string)
  : M string :=
  safe_table ← lift (validate_table_name table);
  let sql := "SELECT TOP 100 * FROM " +:+ safe_table in
  call (EvConnect (conn_string config)) (db_connect db (conn_string config));;
  call EvCursor (db_cursor db);;
  call (EvExecute sql) (db_execute db sql);;
  columns ← lift (column_names (db_description db sql));
  rows ← call EvFetchall (db_fetchall db sql);
  call EvCursorClose (db_cursor_close db);;
  call EvConnClose (db_conn_close db);;
  mret (format_table columns rows).

Definition read_resource (env : gmap string string) (drivers : list string)
    (db : pyodbc) (uri_str : string) : M string :=
  config ← lift (get_db_config env drivers);
  if negb (Str.startswith "mssql://" uri_str) then
    raise (ValueError ("Invalid URI scheme: " +:+ uri_str))
  else
    let parts := Str.split "/"%char (Str.drop 8 uri_str) in
    let table := hd EmptyString parts in
    try_except (read_resource_body db config table)
               (fun e => raise (RuntimeError ("Database error: " +:+ exn_str e))).

(* ===================================================================== *)
(** ** list_tools and call_tool (lines 210-279) *)

Record TextContent : Type := { type_ : string; text : string }.

Definition text_content (s : string) : TextContent :=
  {| type_ := "text"; text := s |}.

Definition call_tool_body (db : pyodbc) (config : db_config) (query : string)
  : M (list TextContent) :=
  call (EvConnect (conn_string config)) (db_connect db (conn_string config));;
  call EvCursor (db_cursor db);;
  call (EvExecute query) (db_execute db query);;
  if is_select_query query
     && Ustr.contains (Str.codes "INFORMATION_SCHEMA.TABLES") (Str.upper query) then
    tables ← call EvFetchall (db_fetchall db query);
    firsts ← lift (mapM row_first tables);
    let result := CStr ("Tables_in_" +:+ database config) :: firsts in
    call EvCursorClose (db_cursor_close db);;
    call EvConnClose (db_conn_close db);;
    lines ← lift (all_str result);
    mret [text_content (Str.join nl lines)]
  else if is_select_query query then
    columns ← lift (column_names (db_description db query));
    rows ← call EvFetchall (db_fetchall db query);
    call EvCursorClose (db_cursor_close db);;
    call EvConnClose (db_conn_close db);;
    mret [text_content (format_table columns rows)]
  else
    call EvCommit (db_commit db);;
    let affected_rows := db_rowcount db query in
    call EvCursorClose (db_cursor_close db);;
    call EvConnClose (db_conn_close db);;
    mret [text_content ("Query executed successfully. Rows affected: "
                        +:+ Str.of_Z affected_rows)].

Definition call_tool (env : gmap string string) (drivers : list string)
    (db : pyodbc) (name : string) (arguments : gmap string string)
  : M (list TextContent) :=
  config ← lift (get_db_config env drivers);
  let command := get_command env in
  if negb (Str.eqb name command) then
    raise (ValueError ("Unknown tool: " +:+ name))
  else
    let query := arguments !! "query" in
    if negb (truthy query) then raise (ValueError "Query is required")
    else
      let query := default "" query in
      try_except (call_tool_body db config query)
                 (fun e => mret [text_content ("Error executing query: " +:+ exn_str e)]).

(** [list_tools] (lines 210-230): one tool, named by [get_command]; the
    input schema is kept as the JSON value it is. *)
#[warnings="-register-all"]
Inductive json : Type :=
| JString (s : string)
| JArray (items : list json)
| JObject (fields : list (string * json)).

Record Tool : Type := {
  tool_name : string;          (* name *)
  tool_description : string;   (* description *)
  inputSchema : json
}.

Definition list_tools (env : gmap string string) : list Tool :=
  let command := get_command env in
  [ {| tool_name := command;
       tool_description := "Execute an SQL query on the SQL Server";
       inputSchema :=
         JObject
           [("type", JString "object");
            ("properties",
             JObject
               [("query",
                 JObject [("type", JString "string");
                          ("description", JString "The SQL query to execute")])]);
            ("required", JArray [JString "query"])] |} ].

(* ===================================================================== *)
(** ** main (lines 281-292)

    The start-up of [main], up to the hand-over to the transport loop:
    configuration is resolved once, and one line describing it is written
    to the log.  The value is that line. *)

Definition main_startup (env : gmap string string) (drivers : list string)
  : result string :=
  config ← get_db_config env drivers;
  let server_info := server config in
  let server_info :=
    if truthy (Some (port config)) && negb (Str.eqb (port config) "1433")
    then server_info +:+ ":" +:+ port config
    else server_info in
  let user_info := user config in
  Ok ("Database config: " +:+ server_info +:+ "/" +:+ database config
      +:+ " as " +:+ user_info).

(* ===================================================================== *)
(** ** The vocabulary of the specification

    These definitions follow the words of the specification, not the
    code; the theorems below compare the two. *)

Module Spec.

(** a component of a TableIdentifier: [^[A-Za-z0-9_]+$] *)
Fixpoint all_word (s : string) : bool :=
  match s with
  | EmptyString => true
  | String c s' => Chr.is_word c && all_word s'
  end.

Definition is_segment (s : string) : bool :=
  match s with
  | EmptyString => false
  | String _ _ => all_word s
  end.

(** [identifier s e]: the whole of [s] is [table] or [schema.table], and
    [e] is its bracket-delimited escaped form, segments in order *)
Inductive identifier : string -> string -> Prop :=
| id_table (t : string) :
    is_segment t = true ->
    identifier t ("[" +:+ t +:+ "]")
| id_schema_table (sch t : string) :
    is_segment sch = true -> is_segment t = true ->
    identifier (sch +:+ "." +:+ t) ("[" +:+ sch +:+ "].[" +:+ t +:+ "]").

Inductive StatementKind : Type := READ | WRITE.

(** the first white-space-delimited token: skip the leading white
    space, read up to the next white space or the end *)
Fixpoint take_token (s : string) : string :=
  match s with
  | EmptyString => EmptyString
  | String c s' => if Chr.is_space c then EmptyString else String c (take_token s')
  end.

Definition first_token (s : string) : string := take_token (Str.lstrip s).

(** the text without its line comments: on each line, everything from
    the first [--] up to the line feed goes, and the line feeds stay *)
Fixpoint scan_line_comments (in_comment : bool) (s : string) : string :=
  match s with
  | EmptyString => EmptyString
  | String c s' =>
      if Chr.eqb c Chr.newline then String c (scan_line_comments false s')
      else if in_comment then scan_line_comments true s'
      else if Str.startswith "--" s then scan_line_comments true s'
      else String c (scan_line_comments false s')
  end.

Definition without_line_comments (s : string) : string :=
  scan_line_comments false s.

(** equal up to the case of the letters *)
Fixpoint same_ignoring_case (a b : string) : bool :=
  match a, b with
  | EmptyString, EmptyString => true
  | String c a', String d b' =>
      Chr.eqb (Chr.lower c) (Chr.lower d) && same_ignoring_case a' b'
  | _, _ => false
  end.

End Spec.

(** StatementClassifier: [classify] is [is_select_query] read as a kind. *)
Definition classify (sql : string) : Spec.StatementKind :=
  if is_select_query sql then Spec.READ else Spec.WRITE.

(** a part of the connection string that is no encryption setting *)
Definition plain_part (p : string) : Prop :=
  p <> "Encrypt=yes" /\ p <> "TrustServerCertificate=no"
  /\ p <> "TrustServerCertificate=yes".

(** a connection was opened / closed *)
Definition is_connect (ev : event) : bool :=
  match ev with EvConnect _ => true | _ => false end.

Definition is_conn_close (ev : event) : bool :=
  match ev with EvConnClose => true | _ => false end.

Definition opened (log : list event) : nat := length (List.filter is_connect log).
Definition closed (log : list event) : nat := length (List.filter is_conn_close log).

(** the connection discipline, on the outcome and the event log of a run:
    at most one connection is opened, none is closed that was not opened,
    and after a normal return one connection was opened and closing it
    was the last database event *)
Definition disciplined {A} (out : result A * list event) : Prop :=
  opened out.2 <= 1 /\ closed out.2 <= opened out.2 /\
  (is_ok out.1 = true ->
   opened out.2 = 1 /\ closed out.2 = 1 /\ last out.2 = Some EvConnClose).

(** *** Vocabulary of the properties read off the code *)

(** every character of a text satisfies [p] *)
Fixpoint all_chars (p : ascii -> bool) (s : string) : bool :=
  match s with
  | EmptyString => true
  | String c s' => p c && all_chars p s'
  end.

(** the characters an accepted table name is made of *)
Definition name_char (c : ascii) : bool :=
  Chr.is_word c || Chr.eqb c "."%char || Chr.eqb c Chr.newline.

(** a character that can neither open nor close a comment *)
Definition plain_char (c : ascii) : bool :=
  negb (Chr.eqb c "/"%char) && negb (Chr.eqb c "-"%char).

Definition not_space (c : ascii) : bool := negb (Chr.is_space c).

(** an escaped name without its brackets *)
Fixpoint unbracket (e : string) : string :=
  match e with
  | EmptyString => EmptyString
  | String c e' =>
      if Chr.eqb c "["%char || Chr.eqb c "]"%char then unbracket e'
      else String c (unbracket e')
  end.

(** two environments that agree on every variable outside [names] *)
Definition agree_except (names : list string) (env1 env2 : gmap string string)
  : Prop :=
  forall k, k ∉ names -> env1 !! k = env2 !! k.

(** a database on which no driver call of a conversation about [sql]
    fails, and which answers [sql] with [rows] *)
Definition serves (db : pyodbc) (config : db_config) (sql : string)
    (rows : list row) : Prop :=
  db_connect db (conn_string config) = Ok ()
  /\ db_cursor db = Ok ()
  /\ db_execute db sql = Ok ()
  /\ db_fetchall db sql = Ok rows
  /\ db_commit db = Ok ()
  /\ db_cursor_close db = Ok ()
  /\ db_conn_close db = Ok ().

(** the driver calls of each guarded block, in the order of the source,
    when nothing fails *)
Definition list_resources_sequence (config : db_config) : list event :=
  [EvConnect (conn_string config); EvCursor; EvExecute list_tables_sql;
   EvFetchall; EvCursorClose; EvConnClose].

Definition read_resource_sequence (config : db_config) (safe_table : string)
  : list event :=
  [EvConnect (conn_string config); EvCursor;
   EvExecute ("SELECT TOP 100 * FROM " +:+ safe_table);
   EvFetchall; EvCursorClose; EvConnClose].

Definition call_tool_sequence (config : db_config) (query : string)
  : list event :=
  [EvConnect (conn_string config); EvCursor; EvExecute query]
  ++ (if is_select_query query then [EvFetchall] else [EvCommit])
  ++ [EvCursorClose; EvConnClose].

(* ===================================================================== *)
(** ** Concrete environments, registries and databases *)

Module Ex.

(** SQL authentication against the default host *)
Definition env_sql : gmap string string :=
  <["MSSQL_DATABASE" := "shop"]>
    (<["MSSQL_USER" := "app"]> (<["MSSQL_PASSWORD" := "secret"]> ∅)).

(** a database name and nothing else *)
Definition env_no_credentials : gmap string string :=
  <["MSSQL_DATABASE" := "shop"]> ∅.

(** integrated authentication, no principal and no credential *)
Definition env_windows : gmap string string :=
  <["MSSQL_DATABASE" := "shop"]> (<["MSSQL_WINDOWS_AUTH" := "TRUE"]> ∅).

(** a cloud-hosted server, MSSQL_ENCRYPT not set *)
Definition env_azure : gmap string string :=
  <["MSSQL_SERVER" := "shop.database.windows.net"]> env_sql.

(** an on-premises server, MSSQL_ENCRYPT not set / set *)
Definition env_onprem : gmap string string :=
  <["MSSQL_SERVER" := "db01"]> env_sql.

Definition env_onprem_encrypt : gmap string string :=
  <["MSSQL_ENCRYPT" := "True"]> env_onprem.

Definition drivers : list string :=
  ["SQLite3 ODBC Driver"; "ODBC Driver 17 for SQL Server"].

Definition drivers_without_sql_server : list string := ["SQLite3 ODBC Driver"].

Definition driver_part : string := "DRIVER={ODBC Driver 17 for SQL Server}".

Definition cfg_sql : db_config :=
  {| conn_string :=
       driver_part +:+ ";SERVER=localhost;DATABASE=shop;UID=app;PWD=secret";
     server := "localhost"; database := "shop"; user := "app"; port := "1433" |}.

Definition cfg_azure : db_config :=
  {| conn_string :=
       driver_part +:+ ";SERVER=shop.database.windows.net;DATABASE=shop;UID=app;PWD=secret;Encrypt=yes;TrustServerCertificate=no";
     server := "shop.database.windows.net"; database := "shop"; user := "app";
     port := "1433" |}.

Definition cfg_onprem : db_config :=
  {| conn_string :=
       driver_part +:+ ";SERVER=db01;DATABASE=shop;UID=app;PWD=secret";
     server := "db01"; database := "shop"; user := "app"; port := "1433" |}.

Definition cfg_onprem_encrypt : db_config :=
  {| conn_string :=
       driver_part +:+ ";SERVER=db01;DATABASE=shop;UID=app;PWD=secret;Encrypt=yes;TrustServerCertificate=yes";
     server := "db01"; database := "shop"; user := "app"; port := "1433" |}.

(** the arguments of a tool call *)
Definition args_select : gmap string string := {["query" := "SELECT 1 AS x"]}.

(** a LocalDB instance with integrated authentication and a port *)
Definition env_localdb : gmap string string :=
  <["MSSQL_SERVER" := "(localdb)\MSSQLLocalDB"]>
    (<["MSSQL_PORT" := "1500"]> env_windows).

(** a cloud-hosted server with MSSQL_ENCRYPT set to yes *)
Definition env_azure_encrypt_yes : gmap string string :=
  <["MSSQL_ENCRYPT" := "yes"]> env_azure.

Definition env_sql_other_password : gmap string string :=
  <["MSSQL_PASSWORD" := "another"]> env_sql.

Definition args_delete : gmap string string :=
  {["query" := "DELETE FROM t WHERE 1=0"]}.

Definition args_list_tables : gmap string string :=
  {["query" := list_tables_sql]}.

(** a database on which every driver call succeeds: one table, Orders,
    with the columns (Id, Name) and the row (1, A) *)
Definition db_orders : pyodbc :=
  {| db_connect := fun _ => Ok ();
     db_cursor := Ok ();
     db_execute := fun _ => Ok ();
     db_description := fun sql =>
       if Str.eqb sql "SELECT 1 AS x" then Some ["x"] else Some ["Id"; "Name"];
     db_fetchall := fun sql =>
       if Str.eqb sql "SELECT 1 AS x" then Ok [[CVal "int" "1"]]
       else if Str.eqb sql list_tables_sql then Ok [[CStr "Orders"]]
       else Ok [[CVal "int" "1"; CStr "A"]];
     db_commit := Ok ();
     db_rowcount := fun _ => 0%Z;
     db_cursor_close := Ok ();
     db_conn_close := Ok () |}.

(** the same database, rejecting every statement *)
Definition db_rejecting : pyodbc :=
  {| db_connect := fun _ => Ok ();
     db_cursor := Ok ();
     db_execute := fun _ => Raise (DatabaseError "42000 syntax error");
     db_description := fun _ => None;
     db_fetchall := fun _ => Ok [];
     db_commit := Ok ();
     db_rowcount := fun _ => (-1)%Z;
     db_cursor_close := Ok ();
     db_conn_close := Ok () |}.

(** a URL validation that rejects a text with a blank in it and leaves
    any other text as it is *)
Definition types : mcp_types :=
  {| AnyUrl := fun url =>
       if Str.contains " " url
       then Raise (ValidationError "1 validation error for Resource")
       else Ok url |}.

(** the database of before with a second table, Order Details *)
Definition db_order_details : pyodbc :=
  {| db_connect := fun _ => Ok ();
     db_cursor := Ok ();
     db_execute := fun _ => Ok ();
     db_description := fun _ => Some ["Id"; "Name"];
     db_fetchall := fun sql =>
       if Str.eqb sql list_tables_sql
       then Ok [[CStr "Orders"]; [CStr "Order Details"]]
       else Ok [[CVal "int" "1"; CStr "A"]];
     db_commit := Ok ();
     db_rowcount := fun _ => 0%Z;
     db_cursor_close := Ok ();
     db_conn_close := Ok () |}.

(** a server that cannot be reached *)
Definition db_unreachable : pyodbc :=
  {| db_connect := fun _ => Raise (DatabaseError "08001 cannot connect");
     db_cursor := Ok ();
     db_execute := fun _ => Ok ();
     db_description := fun _ => None;
     db_fetchall := fun _ => Ok [];
     db_commit := Ok ();
     db_rowcount := fun _ => (-1)%Z;
     db_cursor_close := Ok ();
     db_conn_close := Ok () |}.

End Ex.

(* ===================================================================== *)
(** * Theorems *)

(** ** Strings: basic facts *)

Lemma str_app_nil_l (s : string) : "" +:+ s = s.
Proof. reflexivity. Qed.

Lemma str_app_cons (c : ascii) (s t : string) :
  String c s +:+ t = String c (s +:+ t).
Proof. reflexivity. Qed.

Lemma str_app_nil_r (s : string) : s +:+ "" = s.
Proof. induction s as [|c s IH]; [done|]. by rewrite str_app_cons, IH. Qed.

Lemma str_app_assoc (s t u : string) : (s +:+ t) +:+ u = s +:+ (t +:+ u).
Proof. induction s as [|c s IH]; [done|]. by rewrite !str_app_cons, IH. Qed.

Lemma chr_eqb_eq (a b : ascii) : Chr.eqb a b = true <-> a = b.
Proof. apply Ascii.eqb_eq. Qed.

Lemma chr_eqb_refl (a : ascii) : Chr.eqb a a = true.
Proof. apply Ascii.eqb_refl. Qed.

Lemma first_of_is_Some (a b : option string) :
  is_Some (Re.first_of a b) <-> is_Some a \/ is_Some b.
Proof.
  destruct a as [r|]; simpl.
  - split; [intros _; left; eauto | eauto].
  - split; [by right | intros [[? [=]]|]; done].
Qed.

(** ** The identifier pattern *)

Section table_name_pattern.

(** a greedy run of word characters matches every non-empty prefix made
    of word characters, provided the rest of the pattern accepts what
    follows *)
Lemma plus_word_intro (k : Re.cont) (t rest : string) :
  Spec.is_segment t = true -> is_Some (k rest) ->
  is_Some (Re.plus Chr.is_word k (t +:+ rest)).
Proof.
  intros Hseg Hk. induction t as [|c t IH]; [done|].
  simpl in Hseg. apply andb_prop in Hseg as [Hc Ht].
  rewrite str_app_cons. simpl. rewrite Hc.
  apply first_of_is_Some.
  destruct t as [|c' t]; [by right|].
  left. apply IH. exact Ht.
Qed.

Lemma plus_word_elim (k : Re.cont) (s : string) :
  is_Some (Re.plus Chr.is_word k s) ->
  exists t rest, s = t +:+ rest /\ Spec.is_segment t = true /\ is_Some (k rest).
Proof.
  induction s as [|c s IH]; simpl; [by intros [? [=]]|].
  destruct (Chr.is_word c) eqn:Hc; [|by intros [? [=]]].
  intros [H|H]%first_of_is_Some.
  - destruct (IH H) as (t & rest & -> & Hseg & Hk).
    exists (String c t), rest. split; [done|]. split; [|done].
    simpl. rewrite Hc. by destruct t.
  - exists (String c ""), s. split; [done|]. split; [|done].
    simpl. by rewrite Hc.
Qed.

Lemma eol_is_Some (s : string) :
  is_Some (Re.eol Some s) <-> s = "" \/ s = nl.
Proof.
  destruct s as [|c [|d s]]; simpl.
  - split; [by left | eauto].
  - destruct (Chr.eqb c Chr.newline) eqn:E.
    + apply chr_eqb_eq in E as ->. split; [by right | eauto].
    + split; [by intros [? [=]]|]. intros [[=]|[= ->]].
      by rewrite chr_eqb_refl in E.
  - split; [by intros [? [=]]|]. by intros [[=]|[=]].
Qed.

(** what [re.match] accepts: the grammar, and the grammar followed by
    one line feed *)
Lemma table_name_match (s : string) :
  is_Some (Re.match_ Re.table_name s) <->
  exists body tail_, s = body +:+ tail_ /\ (tail_ = "" \/ tail_ = nl) /\
    (Spec.is_segment body = true \/
     exists sch t, body = sch +:+ "." +:+ t /\
                   Spec.is_segment sch = true /\ Spec.is_segment t = true).
Proof.
  unfold Re.match_, Re.table_name, Re.seq, Re.opt. split.
  - intros (t & rest & -> & Hseg & Hk)%plus_word_elim.
    apply first_of_is_Some in Hk as [Hk|Hk].
    + destruct rest as [|c rest]; [by destruct Hk as [? [=]]|].
      simpl in Hk. destruct (Chr.eqb c ".") eqn:Hc; [|by destruct Hk as [? [=]]].
      apply chr_eqb_eq in Hc as ->.
      apply plus_word_elim in Hk as (t2 & rest2 & -> & Hseg2 & Hk).
      apply eol_is_Some in Hk.
      exists (t +:+ "." +:+ t2), rest2. split.
      { by rewrite !str_app_assoc. }
      split; [done|]. right. by exists t, t2.
    + apply eol_is_Some in Hk. exists t, rest. eauto.
  - intros (body & tl & -> & Htl & [Hseg | (sch & t & -> & Hsch & Ht)]).
    + apply plus_word_intro; [done|]. apply first_of_is_Some. right.
      by apply eol_is_Some.
    + rewrite !str_app_assoc. apply plus_word_intro; [done|].
      apply first_of_is_Some. left. rewrite str_app_cons, str_app_nil_l. simpl.
      apply plus_word_intro; [done|]. by apply eol_is_Some.
Qed.

End table_name_pattern.

Section validate.

Lemma split_nonempty (sep : ascii) (s : string) : Str.split sep s <> [].
Proof.
  induction s as [|c s IH]; simpl; [done|].
  destruct (Chr.eqb c sep); [done|]. by destruct (Str.split sep s).
Qed.

(** a run of word characters holds no dot, so [split] keeps it in the
    first part *)
Lemma split_dot_word (t r : string) :
  Spec.all_word t = true ->
  Str.split "." (t +:+ r) =
    (t +:+ hd "" (Str.split "." r)) :: tl (Str.split "." r).
Proof.
  intros Ht. induction t as [|c t IH].
  - rewrite !str_app_nil_l.
    pose proof (split_nonempty "." r). by destruct (Str.split "." r).
  - simpl in Ht. apply andb_prop in Ht as [Hc Ht].
    rewrite !str_app_cons. simpl.
    destruct (Chr.eqb c ".") eqn:E.
    { apply chr_eqb_eq in E as ->. done. }
    by rewrite (IH Ht).
Qed.

Lemma segment_all_word (t : string) :
  Spec.is_segment t = true -> Spec.all_word t = true.
Proof. by destruct t. Qed.

Lemma split_segment (t tail_ : string) :
  Spec.is_segment t = true -> tail_ = "" \/ tail_ = nl ->
  Str.split "." (t +:+ tail_) = [t +:+ tail_].
Proof.
  intros Ht%segment_all_word Htl. rewrite (split_dot_word _ _ Ht).
  by destruct Htl as [-> | ->].
Qed.

Lemma split_two_segments (sch t tail_ : string) :
  Spec.is_segment sch = true -> Spec.is_segment t = true ->
  tail_ = "" \/ tail_ = nl ->
  Str.split "." ((sch +:+ "." +:+ t) +:+ tail_) = [sch; t +:+ tail_].
Proof.
  intros Hs%segment_all_word Ht Htl.
  rewrite !str_app_assoc, (split_dot_word _ _ Hs).
  rewrite str_app_cons, str_app_nil_l. simpl.
  rewrite (split_segment _ _ Ht Htl). simpl. by rewrite str_app_nil_r.
Qed.

(** The accepting half of the validator: every identifier of the
    grammar is accepted and escaped, segments in order. *)
Theorem validate_table_name_accepts (s e : string) :
  Spec.identifier s e -> validate_table_name s = Ok e.
Proof.
  intros Hid. unfold validate_table_name.
  assert (is_Some (Re.match_ Re.table_name s)) as [r ->].
  { apply table_name_match. exists s, "". rewrite str_app_nil_r.
    split; [done|]. split; [by left|].
    destruct Hid as [t Ht | sch t Hs Ht]; [by left|]. right. by exists sch, t. }
  destruct Hid as [t Ht | sch t Hs Ht].
  - pose proof (split_segment t "" Ht (or_introl eq_refl)) as Hsp.
    rewrite str_app_nil_r in Hsp. by rewrite Hsp.
  - pose proof (split_two_segments sch t "" Hs Ht (or_introl eq_refl)) as Hsp.
    rewrite !str_app_nil_r in Hsp. by rewrite Hsp.
Qed.

(** ... and so is every identifier of the grammar followed by one line
    feed, which ends up inside the last bracket. *)
Theorem validate_table_name_trailing_newline (sch t : string) :
  Spec.is_segment sch = true -> Spec.is_segment t = true ->
  validate_table_name (t +:+ nl) = Ok ("[" +:+ (t +:+ nl) +:+ "]") /\
  validate_table_name ((sch +:+ "." +:+ t) +:+ nl)
    = Ok ("[" +:+ sch +:+ "].[" +:+ (t +:+ nl) +:+ "]").
Proof.
  intros Hs Ht. unfold validate_table_name. split.
  - assert (is_Some (Re.match_ Re.table_name (t +:+ nl))) as [r ->].
    { apply table_name_match. exists t, nl. eauto. }
    by rewrite (split_segment t nl Ht (or_intror eq_refl)).
  - assert (is_Some (Re.match_ Re.table_name ((sch +:+ "." +:+ t) +:+ nl)))
      as [r ->].
    { apply table_name_match. exists (sch +:+ "." +:+ t), nl.
      split; [done|]. split; [by right|]. right. by exists sch, t. }
    by rewrite (split_two_segments sch t nl Hs Ht (or_intror eq_refl)).
Qed.

(** Everything else is rejected, and the error carries the input. *)
Theorem validate_table_name_ok_iff (s : string) :
  is_ok (validate_table_name s) = true <->
  exists body tail_ e, s = body +:+ tail_ /\ (tail_ = "" \/ tail_ = nl) /\
                       Spec.identifier body e.
Proof.
  unfold validate_table_name. split.
  - destruct (Re.match_ Re.table_name s) as [r|] eqn:Hm; [|done].
    intros _.
    assert (is_Some (Re.match_ Re.table_name s)) as Hs by (by rewrite Hm).
    apply table_name_match in Hs
      as (body & tl & -> & Htl & [Hseg | (sch & t & -> & Hsch & Ht)]).
    + exists body, tl, ("[" +:+ body +:+ "]"). split; [done|]. split; [done|].
      by constructor.
    + exists (sch +:+ "." +:+ t), tl, ("[" +:+ sch +:+ "].[" +:+ t +:+ "]").
      split; [done|]. split; [done|]. by constructor.
  - intros (body & tl & e & -> & Htl & Hid).
    assert (is_Some (Re.match_ Re.table_name (body +:+ tl))) as [r ->].
    { apply table_name_match. exists body, tl. split; [done|]. split; [done|].
      destruct Hid as [t Ht | sch t Hs Ht]; [by left|]. right. by exists sch, t. }
    by destruct (Str.split "." (body +:+ tl)) as [|? [|? [|]]].
Qed.

Theorem validate_table_name_error (s : string) :
  is_ok (validate_table_name s) = false ->
  validate_table_name s = Raise (ValueError ("Invalid table name: " +:+ s)).
Proof.
  unfold validate_table_name.
  destruct (Re.match_ Re.table_name s); [|done].
  by destruct (Str.split "." s) as [|? [|? [|]]].
Qed.

(** No string that ends in a line feed is an identifier of the grammar. *)
Lemma identifier_not_newline (body e : string) :
  ~ Spec.identifier (body +:+ nl) e.
Proof.
  assert (forall t, Spec.all_word (t +:+ nl) = false) as Hw.
  { induction t as [|c t IH]; [done|]. rewrite str_app_cons. simpl.
    rewrite IH. apply andb_false_r. }
  assert (forall a b t, a +:+ "." +:+ t = b +:+ nl -> Spec.is_segment t = true ->
                        False) as Hdot.
  { induction a as [|c a IH]; intros b t Heq Ht.
    - rewrite str_app_nil_l, str_app_cons, str_app_nil_l in Heq.
      destruct b as [|d b]; [by destruct t|].
      rewrite str_app_cons in Heq. injection Heq as _ Heq. subst t.
      apply segment_all_word in Ht. by rewrite Hw in Ht.
    - destruct b as [|d b].
      + rewrite str_app_cons in Heq. injection Heq as _ Heq.
        by destruct a.
      + rewrite !str_app_cons in Heq. injection Heq as _ Heq. eauto. }
  intros Hid. inversion Hid as [t Ht Heq|sch t Hs Ht Heq]; subst.
  - apply segment_all_word in Ht. by rewrite Hw in Ht.
  - eauto.
Qed.

End validate.

(** C1 (code defect).  The pattern ends in [$], and [re.match] lets [$]
    match just before a final line feed: the table name "users" followed
    by a line feed is no identifier of the grammar, yet the validator
    accepts it and returns it bracketed, line feed included, instead of
    raising the validation error. *)
Theorem C1_validate_table_name_accepts_trailing_newline :
  validate_table_name ("users" +:+ nl) = Ok ("[users" +:+ nl +:+ "]")
  /\ (forall e, ~ Spec.identifier ("users" +:+ nl) e)
  /\ validate_table_name ("dbo.users" +:+ nl) = Ok ("[dbo].[users" +:+ nl +:+ "]").
Proof.
  split; [reflexivity|]. split; [|reflexivity].
  intros e. apply identifier_not_newline.
Qed.

(** ** The first word of a text *)

Section first_word.

Lemma rev_string_acc (w acc : string) :
  Str.rev_string acc w = Str.rev_string "" w +:+ acc.
Proof.
  revert acc. induction w as [|c w IH]; intros acc; simpl; [done|].
  rewrite (IH (String c acc)), (IH (String c "")).
  by rewrite str_app_assoc.
Qed.

(** [split()] read from the left: with a word under way, its first
    element is that word run to its end; otherwise it is the first
    token of the text *)
Lemma split_ws_from_hd (s w : string) :
  hd "" (Str.split_ws_from w s) =
    match w with
    | EmptyString => Spec.first_token s
    | _ => Str.rev_string "" w +:+ Spec.take_token s
    end.
Proof.
  revert w. induction s as [|c s IH]; intros w.
  - destruct w; simpl; [done|]. by rewrite str_app_nil_r.
  - simpl. unfold Spec.first_token. simpl.
    destruct (Chr.is_space c) eqn:Hc.
    + destruct w; simpl; [apply (IH "")|]. by rewrite str_app_nil_r.
    + rewrite IH. simpl. rewrite Hc.
      rewrite (rev_string_acc w), str_app_assoc. by destruct w.
Qed.

Lemma rstrip_cons_nonspace (c : ascii) (s : string) :
  Chr.is_space c = false -> Str.rstrip (String c s) = String c (Str.rstrip s).
Proof. intros Hc. simpl. rewrite Hc. by destruct (Str.rstrip s). Qed.

Lemma take_token_rstrip (s : string) :
  Spec.take_token (Str.rstrip s) = Spec.take_token s.
Proof.
  induction s as [|c s IH]; [done|].
  destruct (Chr.is_space c) eqn:Hc.
  - simpl. rewrite Hc. destruct (Str.rstrip s); simpl; by rewrite ?Hc.
  - rewrite rstrip_cons_nonspace by done. simpl. by rewrite Hc, IH.
Qed.

(** after [lstrip] a text is empty or starts with a character that is
    not white space *)
Lemma lstrip_head (s : string) :
  Str.lstrip s = "" \/
  exists c t, Str.lstrip s = String c t /\ Chr.is_space c = false.
Proof.
  induction s as [|c s IH]; simpl; [by left|].
  destruct (Chr.is_space c) eqn:Hc; [done|]. right. eauto.
Qed.

Lemma lstrip_idem (s : string) : Str.lstrip (Str.lstrip s) = Str.lstrip s.
Proof.
  destruct (lstrip_head s) as [-> | (c & t & -> & Hc)]; [done|].
  simpl. by rewrite Hc.
Qed.

Lemma split_ws_from_word (s w : string) :
  w <> "" -> Str.split_ws_from w s <> [].
Proof.
  revert w. induction s as [|d u IH]; intros w Hw; simpl; [by destruct w|].
  destruct (Chr.is_space d); [by destruct w|]. by apply IH.
Qed.

(** [split()] of a text that [strip()] leaves non-empty is not empty:
    the default of [hd] in [first_word] is never used *)
Lemma split_ws_strip_nonempty (s : string) :
  Str.strip s <> "" -> Str.split_ws (Str.strip s) <> [].
Proof.
  unfold Str.strip, Str.split_ws.
  destruct (lstrip_head s) as [-> | (c & t & -> & Hc)]; [done|].
  rewrite rstrip_cons_nonspace by done. intros _. simpl. rewrite Hc.
  by apply split_ws_from_word.
Qed.

(** the code's first word is the specification's first token *)
Lemma first_word_first_token (s : string) :
  first_word s = Spec.first_token s.
Proof.
  unfold first_word, Str.strip, Spec.first_token.
  destruct (lstrip_head s) as [E | (c & t & E & Hc)]; rewrite E; [done|].
  rewrite rstrip_cons_nonspace by done.
  unfold Str.split_ws. rewrite (split_ws_from_hd _ "").
  unfold Spec.first_token. simpl. rewrite Hc. simpl. rewrite Hc.
  by rewrite take_token_rstrip.
Qed.

(** one character of the upper-cased token against one letter of SELECT:
    the sharp s, which becomes SS, is the one character that gives two *)
Lemma upper_head_SELECT (c d : ascii) (r t : list N) :
  In d (list_ascii_of_string "SELECT") ->
  (d = "S"%char -> hd 0%N t <> 83%N) ->
  Ustr.eqb (Chr.upper c ++ r) (N_of_ascii d :: t)
  = Chr.eqb (Chr.lower c) (Chr.lower d) && Ustr.eqb r t.
Proof.
  intros Hd Ht. simpl in Hd.
  destruct Hd as [<-|[<-|[<-|[<-|[<-|[<-|[]]]]]]];
    destruct c as [[] [] [] [] [] [] [] []]; try (by vm_compute).
  destruct t as [|m t]; [done|].
  specialize (Ht eq_refl). simpl in Ht.
  change (N.eqb 83 m && Ustr.eqb r t = false).
  by destruct (N.eqb_spec 83 m) as [<-|].
Qed.

(** comparing the upper-cased token with a word made of the letters of
    SELECT, without a double S, is comparing the two up to case *)
Lemma upper_eqb_same_ignoring_case (tok target : string) :
  (forall d, In d (list_ascii_of_string target) ->
             In d (list_ascii_of_string "SELECT")) ->
  Str.contains "SS" target = false ->
  Ustr.eqb (Str.upper tok) (Str.codes target)
  = Spec.same_ignoring_case tok target.
Proof.
  revert target. induction tok as [|c tok IH]; intros [|d target] Hin Hss;
    try done.
  { by destruct c as [[] [] [] [] [] [] [] []]. }
  change (Ustr.eqb (Chr.upper c ++ Str.upper tok)
                   (N_of_ascii d :: Str.codes target)
          = Chr.eqb (Chr.lower c) (Chr.lower d)
            && Spec.same_ignoring_case tok target).
  revert Hss. unfold Str.contains.
  change (Str.find "SS" (String d target))
    with (if Str.startswith "SS" (String d target) then Some O
          else S <$> Str.find "SS" target).
  destruct (Str.startswith "SS" (String d target)) eqn:Hs; [done|].
  destruct (Str.find "SS" target) eqn:Hf; [done|]. intros _.
  rewrite upper_head_SELECT.
  - rewrite IH; [done| |by unfold Str.contains; rewrite Hf].
    intros d' Hd'. apply Hin. by right.
  - apply Hin. by left.
  - intros ->. destruct target as [|e target]; [done|]. simpl.
    intros He. apply (f_equal ascii_of_N) in He.
    rewrite ascii_N_embedding in He. subst e. done.
Qed.

Lemma upper_is_SELECT (tok : string) :
  Ustr.eqb (Str.upper tok) (Str.codes "SELECT")
  = Spec.same_ignoring_case tok "SELECT".
Proof. by apply upper_eqb_same_ignoring_case. Qed.

End first_word.

(** ** Line comments: the code against the scan of the specification *)

Section line_comment_scan.

(** the first line of a text starts like the text, unless the text starts
    with a line feed *)
Lemma split_newline_cons (c : ascii) (s : string) :
  Chr.eqb c Chr.newline = false ->
  exists h t, Str.split Chr.newline s = h :: t
              /\ Str.split Chr.newline (String c s) = String c h :: t.
Proof.
  intros Hc. simpl. rewrite Hc.
  pose proof (split_nonempty Chr.newline s).
  destruct (Str.split Chr.newline s) as [|h t]; [done|]. by exists h, t.
Qed.

Lemma startswith_marker_first_line (c : ascii) (s h : string) (t : list string) :
  Chr.eqb c Chr.newline = false ->
  Str.split Chr.newline s = h :: t ->
  Str.startswith "--" (String c h) = Str.startswith "--" (String c s).
Proof.
  intros Hc Hs. simpl. destruct (Chr.eqb "-" c); [|done]. simpl.
  destruct s as [|d s]; simpl in Hs.
  - by injection Hs as <- <-.
  - destruct (Chr.eqb d Chr.newline) eqn:Hd.
    + injection Hs as <- <-. apply chr_eqb_eq in Hd as ->. done.
    + destruct (Str.split Chr.newline s); by injection Hs as <- <-.
Qed.

Lemma strip_line_comment_cons (c : ascii) (h : string) :
  strip_line_comment (String c h) =
    if Str.startswith "--" (String c h) then ""
    else String c (strip_line_comment h).
Proof.
  unfold strip_line_comment.
  change (Str.find "--" (String c h))
    with (if Str.startswith "--" (String c h) then Some O
          else S <$> Str.find "--" h).
  destruct (Str.startswith "--" (String c h)); [done|].
  by destruct (Str.find "--" h).
Qed.

Lemma join_cons_head (sep : string) (c : ascii) (x : string) (l : list string) :
  Str.join sep (String c x :: l) = String c (Str.join sep (x :: l)).
Proof. by destruct l. Qed.

(** the two passes over the lines, [split] / [find] / slice / [join], do
    what the scan says: outside a comment the lines are stripped one by
    one; inside a comment the rest of the first line goes *)
Lemma scan_line_comments_lines (s : string) :
  Spec.scan_line_comments false s
  = Str.join nl (strip_line_comment <$> Str.split Chr.newline s)
  /\ Spec.scan_line_comments true s
     = Str.join nl ("" :: tail (strip_line_comment <$> Str.split Chr.newline s)).
Proof.
  induction s as [|c s [IHf IHt]]; [done|].
  destruct (Chr.eqb c Chr.newline) eqn:Hc.
  - simpl. rewrite Hc. simpl.
    pose proof (split_nonempty Chr.newline s).
    destruct (Str.split Chr.newline s) as [|h t] eqn:Hs; [done|].
    rewrite IHf. apply chr_eqb_eq in Hc as ->. by split.
  - destruct (split_newline_cons c s Hc) as (h & t & Hs & Hcs).
    rewrite Hcs. rewrite Hs in IHf, IHt. simpl fmap in *. simpl tail in *.
    rewrite strip_line_comment_cons.
    rewrite (startswith_marker_first_line c s h t Hc Hs).
    split.
    + change (Spec.scan_line_comments false (String c s))
        with (if Chr.eqb c Chr.newline
              then String c (Spec.scan_line_comments false s)
              else if Str.startswith "--" (String c s)
                   then Spec.scan_line_comments true s
                   else String c (Spec.scan_line_comments false s)).
      rewrite Hc. destruct (Str.startswith "--" (String c s)); [done|].
      by rewrite IHf, join_cons_head.
    + simpl. by rewrite Hc.
Qed.

Lemma strip_line_comments_scan (s : string) :
  strip_line_comments s = Spec.without_line_comments s.
Proof. symmetry. apply scan_line_comments_lines. Qed.

End line_comment_scan.

(** C2.  The classifier strips the block comments, then the line comments
    of each line, and answers READ exactly when the first
    white-space-delimited token of what remains is SELECT up to the case of
    its letters; every other text, the empty one included, is WRITE. *)
Theorem C2_classify_first_token :
  (forall sql : string,
      classify sql =
        if Spec.same_ignoring_case
             (Spec.first_token
                (Spec.without_line_comments (strip_block_comments sql)))
             "SELECT"
        then Spec.READ else Spec.WRITE)
  /\ classify ("-- SELECT" +:+ nl +:+ "UPDATE t SET x=1") = Spec.WRITE
  /\ classify "/* c */ SELECT * FROM t" = Spec.READ
  /\ classify "" = Spec.WRITE.
Proof.
  split; [|by vm_compute].
  intros sql. unfold classify, is_select_query, strip_comments.
  by rewrite first_word_first_token, upper_is_SELECT, strip_line_comments_scan.
Qed.

(** ** Line comments: the second pass is idempotent *)

Section line_comments.


Lemma split_single_line_cons (c : ascii) (l : string) :
  single_line (String c l) -> Chr.eqb c Chr.newline = false /\ single_line l.
Proof.
  unfold single_line. simpl. destruct (Chr.eqb c Chr.newline); [by intros [=]|].
  pose proof (split_nonempty Chr.newline l).
  destruct (Str.split Chr.newline l) as [|h [|? ?]]; [done| |by intros [=]].
  by intros [= ->].
Qed.

Lemma split_line_then (l r : string) :
  single_line l ->
  Str.split Chr.newline (l +:+ nl +:+ r) = l :: Str.split Chr.newline r.
Proof.
  induction l as [|c l IH]; intros Hl.
  - rewrite str_app_nil_l. unfold nl. rewrite str_app_cons, str_app_nil_l.
    reflexivity.
  - apply split_single_line_cons in Hl as [Hc Hl].
    rewrite str_app_cons. simpl. by rewrite Hc, (IH Hl).
Qed.

Lemma split_join_lines (ls : list string) :
  ls <> [] -> Forall single_line ls ->
  Str.split Chr.newline (Str.join nl ls) = ls.
Proof.
  induction ls as [|x [|y tl] IH]; intros Hne Hall; [done| |].
  - by inversion Hall.
  - inversion Hall as [|? ? Hx Htl]; subst.
    change (Str.join nl (x :: y :: tl)) with (x +:+ nl +:+ Str.join nl (y :: tl)).
    rewrite (split_line_then _ _ Hx). f_equal. by apply IH.
Qed.

Lemma split_lines_single (q : string) :
  Forall single_line (Str.split Chr.newline q).
Proof.
  induction q as [|c q IH]; simpl.
  - by constructor.
  - destruct (Chr.eqb c Chr.newline) eqn:Hc.
    + constructor; [done|exact IH].
    + pose proof (split_nonempty Chr.newline q).
      destruct (Str.split Chr.newline q) as [|h t]; [done|].
      inversion IH as [|? ? Hh Ht]; subst.
      constructor; [|done]. unfold single_line in *. simpl. by rewrite Hc, Hh.
Qed.

Lemma take_single_line (n : nat) (l : string) :
  single_line l -> single_line (Str.take n l).
Proof.
  revert n. induction l as [|c l IH]; intros [|n] Hl; try done.
  apply split_single_line_cons in Hl as [Hc Hl].
  unfold single_line. simpl. by rewrite Hc, (IH n Hl).
Qed.

Lemma strip_line_comment_single_line (l : string) :
  single_line l -> single_line (strip_line_comment l).
Proof.
  intros Hl. unfold strip_line_comment.
  destruct (Str.find "--" l); [by apply take_single_line|done].
Qed.

(** what is kept of a line holds no comment marker *)
Lemma find_take_marker (l : string) (pos : nat) :
  Str.find "--" l = Some pos -> Str.find "--" (Str.take pos l) = None.
Proof.
  revert pos. induction l as [|c l IH]; intros pos; [done|].
  change (Str.find "--" (String c l))
    with (if Str.startswith "--" (String c l) then Some O
          else S <$> Str.find "--" l).
  destruct (Str.startswith "--" (String c l)) eqn:Hs.
  { by intros [= <-]. }
  destruct (Str.find "--" l) as [p|] eqn:Hf; [|done].
  intros [= <-]. simpl Str.take.
  change (Str.find "--" (String c (Str.take p l)))
    with (if Str.startswith "--" (String c (Str.take p l)) then Some O
          else S <$> Str.find "--" (Str.take p l)).
  rewrite (IH p eq_refl).
  assert (Str.startswith "--" (String c (Str.take p l)) = false) as ->; [|done].
  simpl in Hs |- *. destruct (Chr.eqb "-" c); [|done]. simpl in *.
  destruct p as [|p]; [done|]. destruct l as [|d l]; [done|]. simpl in *.
  by destruct (Chr.eqb "-" d).
Qed.

Lemma strip_line_comment_idem (l : string) :
  strip_line_comment (strip_line_comment l) = strip_line_comment l.
Proof.
  unfold strip_line_comment at 2 3.
  destruct (Str.find "--" l) as [pos|] eqn:Hf.
  - unfold strip_line_comment. by rewrite (find_take_marker _ _ Hf).
  - unfold strip_line_comment. by rewrite Hf.
Qed.

Lemma strip_line_comments_idem (q : string) :
  strip_line_comments (strip_line_comments q) = strip_line_comments q.
Proof.
  unfold strip_line_comments.
  rewrite split_join_lines.
  - f_equal. rewrite <- list_fmap_compose. apply list_fmap_ext.
    intros _ l _. apply strip_line_comment_idem.
  - pose proof (split_nonempty Chr.newline q).
    by destruct (Str.split Chr.newline q).
  - apply Forall_fmap. eapply Forall_impl; [apply split_lines_single|].
    intros l Hl. by apply strip_line_comment_single_line.
Qed.

End line_comments.

(** C8 (as amended).  Reclassifying the stripped text gives the same kind
    whenever the stripped text holds no block comment any more, that is,
    whenever the block-comment pass leaves it unchanged. *)
Theorem C8_reclassify_stripped (sql : string) :
  strip_block_comments (strip_comments sql) = strip_comments sql ->
  classify (strip_comments sql) = classify sql.
Proof.
  intros Hfix. unfold classify, is_select_query.
  unfold strip_comments at 1. rewrite Hfix.
  unfold strip_comments. by rewrite strip_line_comments_idem.
Qed.

Lemma C8_reclassify_stripped_witness :
  strip_block_comments (strip_comments "/* c */ SELECT * FROM t -- all")
    = strip_comments "/* c */ SELECT * FROM t -- all"
  /\ classify (strip_comments "/* c */ SELECT * FROM t -- all")
     = classify "/* c */ SELECT * FROM t -- all".
Proof.
  split; [reflexivity|].
  apply (C8_reclassify_stripped "/* c */ SELECT * FROM t -- all"). reflexivity.
Defined.

(** C8 (as stated) fails: removing the comment in the middle of
    [//**/**/SELECT] joins what is left into a new block comment. *)
Lemma C8_counterexample :
  strip_comments "//**/**/SELECT" = "/**/SELECT"
  /\ classify "//**/**/SELECT" = Spec.WRITE
  /\ classify (strip_comments "//**/**/SELECT") = Spec.READ.
Proof. by vm_compute. Qed.

(** ** Configuration *)

Section config.

Variable env : gmap string string.
Variable drivers : list string.

Lemma get_db_config_conn_parts (cfg : db_config) :
  get_db_config env drivers = Ok cfg ->
  exists parts, conn_parts env drivers = Ok parts
                /\ conn_string cfg = Str.join ";" parts
                /\ server cfg = resolved_server env.
Proof.
  unfold get_db_config. destruct (conn_parts env drivers) as [parts|e]; [|done].
  intros [= <-]. by exists parts.
Qed.

Lemma plain_part_intro (a : string) :
  plain_part ("DRIVER={" +:+ a) /\ plain_part ("SERVER=" +:+ a)
  /\ plain_part ("DATABASE=" +:+ a)
  /\ plain_part ("UID=" +:+ a) /\ plain_part ("PWD=" +:+ a).
Proof. unfold plain_part. rewrite !str_app_cons. by repeat split. Qed.

Lemma plain_part_trusted : plain_part "Trusted_Connection=yes".
Proof. by repeat split. Qed.

(** [conn_parts] ends with the encryption settings, which depend on the
    host and on MSSQL_ENCRYPT alone *)
Lemma conn_parts_encryption (parts : list string) :
  conn_parts env drivers = Ok parts ->
  exists base, Forall plain_part base /\
    parts = base ++
      (if is_azure (resolved_server env) then
         if Str.eqb (Str.lower (getenv_default env "MSSQL_ENCRYPT" "true")) "true"
         then ["Encrypt=yes"; "TrustServerCertificate=no"] else []
       else
         if Str.eqb (Str.lower (getenv_default env "MSSQL_ENCRYPT" "false")) "true"
         then ["Encrypt=yes"; "TrustServerCertificate=yes"] else []).
Proof.
  unfold conn_parts.
  destruct (sql_server_drivers drivers) as [|driver others]; [done|].
  set (server_part := if _ && _ && _ then _ else _).
  assert (exists a b, server_part = ["DRIVER={" +:+ a; "SERVER=" +:+ b])
    as (a & b & ->).
  { unfold server_part. destruct (_ && _ && _); simpl; eauto. }
  destruct (negb (truthy (getenv env "MSSQL_DATABASE"))); [done|].
  destruct (use_windows_auth env); simpl.
  - intros Heq.
    match type of Heq with
    | context [Ok [?d; ?s; ?db; ?a; "Encrypt=yes"; _]] => exists [d; s; db; a]
    end.
    split.
    + repeat (apply Forall_cons_2 || apply Forall_nil_2);
        apply plain_part_intro || apply plain_part_trusted.
    + destruct (is_azure _), (Str.eqb _ _); injection Heq as <-;
        by rewrite ?app_nil_r.
  - destruct (negb (truthy (getenv env "MSSQL_USER"))
              || negb (truthy (getenv env "MSSQL_PASSWORD"))); [done|]. simpl.
    intros Heq.
    match type of Heq with
    | context [Ok [?d; ?s; ?db; ?u; ?p; "Encrypt=yes"; _]] => exists [d; s; db; u; p]
    end.
    split.
    + repeat (apply Forall_cons_2 || apply Forall_nil_2);
        apply plain_part_intro.
    + destruct (is_azure _), (Str.eqb _ _); injection Heq as <-;
        by rewrite ?app_nil_r.
Qed.

(** when nothing is missing, resolution succeeds; the connection string
    starts with the driver and the host *)
Lemma conn_parts_ok (driver : string) (others : list string) :
  sql_server_drivers drivers = driver :: others ->
  truthy (getenv env "MSSQL_DATABASE") = true ->
  use_windows_auth env = true
  \/ (truthy (getenv env "MSSQL_USER") = true
      /\ truthy (getenv env "MSSQL_PASSWORD") = true) ->
  exists suffix rest,
    conn_parts env drivers
    = Ok (("DRIVER={" +:+ driver +:+ "}")
            :: ("SERVER=" +:+ resolved_server env +:+ suffix) :: rest)
    /\ rest <> [].
Proof.
  intros Hdrv Hdb Hauth. unfold conn_parts. rewrite Hdrv, Hdb.
  change (negb true) with false. cbv iota.
  set (port := getenv_default env "MSSQL_PORT" "1433").
  set (cond := truthy (Some port) && negb (Str.eqb port "1433")
               && negb (Str.startswith "(localdb)" (resolved_server env))).
  exists (if cond then "," +:+ port else "").
  destruct cond; rewrite ?str_app_nil_r.
  all: destruct (use_windows_auth env);
    [|destruct Hauth as [?|[-> ->]]; [done|]];
    destruct (is_azure _), (Str.eqb _ _); eexists; (split; [reflexivity|done]).
Qed.

End config.

(** C7.  In a resolved descriptor whose host holds the cloud suffix,
    encryption is on and the certificate is validated unless MSSQL_ENCRYPT
    says otherwise; for any other host encryption is off by default, and
    when MSSQL_ENCRYPT turns it on the certificate is trusted without
    validation. *)
Theorem C7_encryption_defaults (env : gmap string string) (drivers : list string)
    (cfg : db_config) :
  get_db_config env drivers = Ok cfg ->
  exists parts,
    conn_parts env drivers = Ok parts /\ conn_string cfg = Str.join ";" parts /\
    (is_azure (server cfg) = true -> getenv env "MSSQL_ENCRYPT" = None ->
       ("Encrypt=yes" ∈ parts) /\ ("TrustServerCertificate=no" ∈ parts)
       /\ ("TrustServerCertificate=yes" ∉ parts)) /\
    (is_azure (server cfg) = false -> getenv env "MSSQL_ENCRYPT" = None ->
       ("Encrypt=yes" ∉ parts) /\ ("TrustServerCertificate=no" ∉ parts)
       /\ ("TrustServerCertificate=yes" ∉ parts)) /\
    (is_azure (server cfg) = false ->
     Str.lower (getenv_default env "MSSQL_ENCRYPT" "false") = "true" ->
       ("Encrypt=yes" ∈ parts) /\ ("TrustServerCertificate=yes" ∈ parts)
       /\ ("TrustServerCertificate=no" ∉ parts)).
Proof.
  intros (parts & Hparts & Hstr & Hsrv)%get_db_config_conn_parts.
  exists parts. split; [done|]. split; [done|]. rewrite Hsrv.
  destruct (conn_parts_encryption _ _ _ Hparts) as (base & Hbase & ->).
  assert (forall p, p ∈ base -> plain_part p) as Hin.
  { by apply Forall_forall. }
  unfold getenv, getenv_default.
  split; [|split]; intros Haz Henc; rewrite Haz, ?Henc; simpl;
    rewrite ?app_nil_r, ?elem_of_app, ?elem_of_cons, ?elem_of_nil.
  all: split; [|split]; try tauto.
  all: intros H; destruct_or?; try done.
  all: match goal with H : _ ∈ _ |- _ =>
         apply Hin in H; unfold plain_part in H; tauto end.
Qed.


Lemma C7_encryption_defaults_witness :
  (exists parts, conn_string Ex.cfg_azure = Str.join ";" parts
                 /\ ("Encrypt=yes" ∈ parts) /\ ("TrustServerCertificate=no" ∈ parts))
  /\ (exists parts, conn_string Ex.cfg_onprem = Str.join ";" parts
                    /\ ("Encrypt=yes" ∉ parts))
  /\ (exists parts, conn_string Ex.cfg_onprem_encrypt = Str.join ";" parts
                    /\ ("Encrypt=yes" ∈ parts)
                    /\ ("TrustServerCertificate=yes" ∈ parts)).
Proof.
  split; [|split].
  - destruct (C7_encryption_defaults Ex.env_azure Ex.drivers Ex.cfg_azure eq_refl)
      as (parts & _ & Hstr & Hcloud & _).
    exists parts. split; [exact Hstr|].
    destruct (Hcloud eq_refl eq_refl) as (? & ? & _). by split.
  - destruct (C7_encryption_defaults Ex.env_onprem Ex.drivers Ex.cfg_onprem eq_refl)
      as (parts & _ & Hstr & _ & Hoff & _).
    exists parts. split; [exact Hstr|].
    by destruct (Hoff eq_refl eq_refl) as (? & _).
  - destruct (C7_encryption_defaults Ex.env_onprem_encrypt Ex.drivers
                Ex.cfg_onprem_encrypt eq_refl)
      as (parts & _ & Hstr & _ & _ & Hon).
    exists parts. split; [exact Hstr|].
    destruct (Hon eq_refl eq_refl) as (? & ? & _). by split.
Defined.

(** C6 (as amended).  With a SQL Server driver registered: when the
    integrated-auth flag is set and a database name is present, resolution
    succeeds whatever MSSQL_USER and MSSQL_PASSWORD are, absent included;
    when the flag is not set and either of them is absent or empty,
    resolution fails with the missing-configuration error. *)
Theorem C6_credentials (env : gmap string string) (drivers : list string) :
  sql_server_drivers drivers <> [] ->
  (use_windows_auth env = true ->
   truthy (getenv env "MSSQL_DATABASE") = true ->
   exists cfg, get_db_config env drivers = Ok cfg /\ user cfg = "Windows Auth")
  /\
  (use_windows_auth env = false ->
   truthy (getenv env "MSSQL_USER") = false
   \/ truthy (getenv env "MSSQL_PASSWORD") = false ->
   get_db_config env drivers = Raise missing_configuration).
Proof.
  intros Hdrv.
  destruct (sql_server_drivers drivers) as [|driver others] eqn:Hd; [done|].
  split.
  - intros Hwin Hdb.
    destruct (conn_parts_ok env drivers driver others Hd Hdb (or_introl Hwin))
      as (suffix & rest & Hparts & _).
    unfold get_db_config. rewrite Hparts, Hwin. simpl. eauto.
  - intros Hwin Hcred. unfold get_db_config, conn_parts. rewrite Hd, Hwin.
    destruct (negb (truthy (getenv env "MSSQL_DATABASE"))); [done|].
    by destruct Hcred as [-> | ->]; rewrite ?orb_true_r.
Qed.

Lemma C6_credentials_witness :
  (exists cfg, get_db_config Ex.env_windows Ex.drivers = Ok cfg
               /\ user cfg = "Windows Auth")
  /\ get_db_config Ex.env_no_credentials Ex.drivers = Raise missing_configuration.
Proof.
  split.
  - apply (C6_credentials Ex.env_windows Ex.drivers); [discriminate|..]; reflexivity.
  - apply (C6_credentials Ex.env_no_credentials Ex.drivers);
      [discriminate|reflexivity|left; reflexivity].
Defined.

(** C6 (as stated) fails: the driver lookup comes before the check of the
    credentials, so without a SQL Server driver the missing principal is
    reported as a missing driver. *)
Lemma C6_counterexample :
  use_windows_auth Ex.env_no_credentials = false
  /\ getenv Ex.env_no_credentials "MSSQL_USER" = None
  /\ get_db_config Ex.env_no_credentials Ex.drivers_without_sql_server
     = Raise no_driver
  /\ no_driver <> missing_configuration.
Proof. repeat split; done. Qed.

(** C10 (as amended).  Without MSSQL_SERVER the host is localhost; with a
    SQL Server driver registered, a database name and valid authentication
    settings, resolution succeeds and the connection string carries
    SERVER=localhost right after the driver. *)
Theorem C10_default_host (env : gmap string string) (drivers : list string) :
  getenv env "MSSQL_SERVER" = None ->
  sql_server_drivers drivers <> [] ->
  truthy (getenv env "MSSQL_DATABASE") = true ->
  use_windows_auth env = true
  \/ (truthy (getenv env "MSSQL_USER") = true
      /\ truthy (getenv env "MSSQL_PASSWORD") = true) ->
  exists cfg driver rest,
    get_db_config env drivers = Ok cfg
    /\ server cfg = "localhost"
    /\ conn_string cfg = "DRIVER={" +:+ driver +:+ "};SERVER=localhost" +:+ rest.
Proof.
  intros Hhost Hdrv Hdb Hauth.
  destruct (sql_server_drivers drivers) as [|driver others] eqn:Hd; [done|].
  destruct (conn_parts_ok env drivers driver others Hd Hdb Hauth)
    as (suffix & rest & Hparts & Hrest).
  assert (resolved_server env = "localhost") as Hsrv.
  { unfold resolved_server, getenv_default. unfold getenv in Hhost.
    by rewrite Hhost. }
  rewrite Hsrv in Hparts. unfold get_db_config. rewrite Hparts, Hsrv. simpl.
  eexists _, driver, (suffix +:+ ";" +:+ Str.join ";" rest).
  split; [reflexivity|]. split; [reflexivity|]. simpl.
  destruct rest as [|r rest]; [done|].
  generalize (Str.join ";" (r :: rest)). intros tail_.
  rewrite !str_app_assoc.
  by rewrite !str_app_cons, !str_app_nil_l.
Qed.

Lemma C10_default_host_witness :
  exists cfg driver rest,
    get_db_config Ex.env_sql Ex.drivers = Ok cfg
    /\ server cfg = "localhost"
    /\ conn_string cfg = "DRIVER={" +:+ driver +:+ "};SERVER=localhost" +:+ rest.
Proof.
  apply (C10_default_host Ex.env_sql Ex.drivers);
    [reflexivity|discriminate|reflexivity|right; split; reflexivity].
Defined.

(** C10 (as stated) fails: a database name and valid credentials do not
    make resolution succeed when no SQL Server driver is registered. *)
Lemma C10_counterexample :
  getenv Ex.env_sql "MSSQL_SERVER" = None
  /\ truthy (getenv Ex.env_sql "MSSQL_DATABASE") = true
  /\ truthy (getenv Ex.env_sql "MSSQL_USER") = true
  /\ truthy (getenv Ex.env_sql "MSSQL_PASSWORD") = true
  /\ get_db_config Ex.env_sql Ex.drivers_without_sql_server = Raise no_driver.
Proof. repeat split; done. Qed.

(** ** The handlers *)

(** unfold the monad of the handlers *)
Ltac unfold_M :=
  unfold run, mbind, M_bind, mret, M_ret, lift, raise, try_except, call in *.

(** case analysis on the next outcome of the scripted database *)
Ltac next_outcome :=
  match goal with
  | |- context [match ?x with Ok _ => _ | Raise _ => _ end] =>
      lazymatch x with
      | context [match _ with _ => _ end] => fail
      | _ => destruct x eqn:?
      end
  | |- context [match ?x with Some _ => _ | None => _ end] =>
      lazymatch x with
      | context [match _ with _ => _ end] => fail
      | _ => destruct x eqn:?
      end
  | |- context [if ?x then _ else _] =>
      lazymatch x with
      | context [match _ with _ => _ end] => fail
      | _ => destruct x eqn:?
      end
  end.

Section handlers.

Variable db : pyodbc.

Lemma read_resource_body_disciplined (config : db_config) (table : string) :
  disciplined (run (read_resource_body db config table)).
Proof.
  unfold disciplined, read_resource_body, column_names. unfold_M.
  repeat (next_outcome; simpl); unfold opened, closed; simpl;
    repeat split; (lia || done).
Qed.

Lemma call_tool_body_disciplined (config : db_config) (query : string) :
  disciplined (run (call_tool_body db config query)).
Proof.
  unfold disciplined, call_tool_body, column_names. unfold_M.
  repeat (next_outcome; simpl); unfold opened, closed; simpl;
    repeat split; (lia || done).
Qed.

(** *** call_tool *)

Variable env : gmap string string.
Variable drivers : list string.

(** once configuration, tool name and query are accepted, [call_tool] is
    its guarded block under the handler that turns an exception into a
    payload *)
Lemma call_tool_guarded (config : db_config) (query : string)
    (arguments : gmap string string) :
  get_db_config env drivers = Ok config ->
  arguments !! "query" = Some query -> query <> "" ->
  run (call_tool env drivers db (get_command env) arguments) =
    match run (call_tool_body db config query) with
    | (Ok contents, log) => (Ok contents, log)
    | (Raise e, log) =>
        (Ok [text_content ("Error executing query: " +:+ exn_str e)], log)
    end.
Proof.
  intros Hcfg Hq Hne. unfold call_tool. unfold_M. rewrite Hcfg, Hq.
  unfold Str.eqb. rewrite String.eqb_refl. simpl.
  destruct query as [|c query]; [done|]. simpl.
  by destruct (call_tool_body db config (String c query) []) as [[?|?] ?].
Qed.

(** what [call_tool] leaves in the log is what its guarded block did *)
Lemma call_tool_log (name : string) (arguments : gmap string string) :
  (run (call_tool env drivers db name arguments)).2 = []
  \/ exists config query,
       get_db_config env drivers = Ok config
       /\ arguments !! "query" = Some query /\ query <> "" /\ name = get_command env
       /\ (run (call_tool env drivers db name arguments)).2
          = (run (call_tool_body db config query)).2.
Proof.
  destruct (get_db_config env drivers) as [config|e] eqn:Hcfg.
  2:{ left. unfold call_tool. unfold_M. by rewrite Hcfg. }
  destruct (Str.eqb name (get_command env)) eqn:Hname.
  2:{ left. unfold call_tool. unfold_M. by rewrite Hcfg, Hname. }
  apply String.eqb_eq in Hname as ->.
  destruct (arguments !! "query") as [[|c query]|] eqn:Hq.
  1,3: left; unfold call_tool; unfold_M; rewrite Hcfg, Hq;
       unfold Str.eqb; by rewrite String.eqb_refl.
  right. exists config, (String c query).
  rewrite (call_tool_guarded config (String c query)) by done.
  repeat split; try done.
  by destruct (run (call_tool_body db config (String c query))) as [[?|?] ?].
Qed.

(** *** read_resource *)

Lemma read_resource_bad_scheme (config : db_config) (uri_str : string) :
  get_db_config env drivers = Ok config ->
  Str.startswith "mssql://" uri_str = false ->
  run (read_resource env drivers db uri_str)
  = (Raise (ValueError ("Invalid URI scheme: " +:+ uri_str)), []).
Proof.
  intros Hcfg Hs. unfold read_resource. unfold_M. by rewrite Hcfg, Hs.
Qed.

(** with the scheme prefix, [read_resource] is its guarded block for the
    text up to the first slash, under the handler that wraps every
    exception as a database error *)
Lemma read_resource_guarded (config : db_config) (rest : string) :
  get_db_config env drivers = Ok config ->
  run (read_resource env drivers db ("mssql://" +:+ rest)) =
    match run (read_resource_body db config (hd "" (Str.split "/" rest))) with
    | (Ok text, log) => (Ok text, log)
    | (Raise e, log) =>
        (Raise (RuntimeError ("Database error: " +:+ exn_str e)), log)
    end.
Proof.
  intros Hcfg. unfold read_resource. unfold_M. rewrite Hcfg.
  change (Str.startswith "mssql://" ("mssql://" +:+ rest)) with true.
  change (Str.drop 8 ("mssql://" +:+ rest)) with rest. simpl.
  by destruct (read_resource_body db config _ []) as [[?|?] ?].
Qed.

Lemma startswith_app (p s : string) :
  Str.startswith p s = true -> exists rest, s = p +:+ rest.
Proof.
  revert s. induction p as [|a p IH]; intros s; [by exists s|].
  destruct s as [|b s]; [done|]. simpl.
  intros [Hab Hp]%andb_prop. apply Ascii.eqb_eq in Hab as ->.
  destruct (IH s Hp) as [rest ->]. by exists rest.
Qed.

Lemma read_resource_log (uri_str : string) :
  (run (read_resource env drivers db uri_str)).2 = []
  \/ exists config table,
       (run (read_resource env drivers db uri_str)).2
       = (run (read_resource_body db config table)).2
       /\ is_ok (run (read_resource env drivers db uri_str)).1
          = is_ok (run (read_resource_body db config table)).1.
Proof.
  destruct (get_db_config env drivers) as [config|e] eqn:Hcfg.
  2:{ left. unfold read_resource. unfold_M. by rewrite Hcfg. }
  destruct (Str.startswith "mssql://" uri_str) eqn:Hs.
  2:{ left. by rewrite (read_resource_bad_scheme config). }
  apply startswith_app in Hs as [rest ->].
  right. exists config, (hd "" (Str.split "/" rest)).
  rewrite (read_resource_guarded config) by done.
  by destruct (run (read_resource_body db config _)) as [[?|?] ?].
Qed.

(** a call of [read_resource] that is stopped before the connection:
    by configuration, by the scheme, or by the validation of the table name *)
Lemma read_resource_stopped (uri_str : string) :
  is_ok (get_db_config env drivers) = false
  \/ Str.startswith "mssql://" uri_str = false
  \/ is_ok (validate_table_name (hd "" (Str.split "/" (Str.drop 8 uri_str))))
     = false ->
  (run (read_resource env drivers db uri_str)).2 = [].
Proof.
  intros Hstop.
  destruct (get_db_config env drivers) as [config|e] eqn:Hcfg.
  2:{ unfold read_resource. unfold_M. by rewrite Hcfg. }
  destruct (Str.startswith "mssql://" uri_str) eqn:Hs.
  2:{ by rewrite (read_resource_bad_scheme config). }
  destruct Hstop as [?|[?|Hbad]]; [done..|].
  apply startswith_app in Hs as [rest ->].
  change (Str.drop 8 ("mssql://" +:+ rest)) with rest in Hbad.
  rewrite (read_resource_guarded config) by done.
  unfold read_resource_body. unfold_M.
  by destruct (validate_table_name (hd "" (Str.split "/" rest))).
Qed.

(** a call of [call_tool] that is stopped before the connection: by
    configuration, by the tool name, or by the query argument *)
Lemma call_tool_stopped (name : string) (arguments : gmap string string) :
  is_ok (get_db_config env drivers) = false
  \/ name <> get_command env
  \/ truthy (arguments !! "query") = false ->
  (run (call_tool env drivers db name arguments)).2 = [].
Proof.
  intros Hstop. unfold call_tool. unfold_M.
  destruct (get_db_config env drivers) as [config|e]; [|done].
  destruct (Str.eqb name (get_command env)) eqn:Hname; [|done].
  apply String.eqb_eq in Hname.
  destruct Hstop as [?|[?|Hq]]; [done..|]. by rewrite Hq.
Qed.

(** a part without the separator stays whole in front of the separator *)
Lemma split_part_then (sep : ascii) (l r : string) :
  Str.split sep l = [l] ->
  Str.split sep (l +:+ String sep r) = l :: Str.split sep r.
Proof.
  induction l as [|c l IH]; intros Hl.
  - rewrite str_app_nil_l. simpl. by rewrite chr_eqb_refl.
  - simpl in Hl. rewrite str_app_cons. simpl.
    destruct (Chr.eqb c sep); [done|].
    pose proof (split_nonempty sep l).
    destruct (Str.split sep l) as [|h [|? ?]] eqn:E; [done| |done].
    injection Hl as ->. by rewrite IH.
Qed.

End handlers.

(** C3 (as amended).  Once configuration has resolved, a call of the
    configured tool with a present, non-empty query returns normally
    whatever the database does: when the guarded block raises, the
    response is the single text "Error executing query: " followed by the
    message of the exception. *)
Theorem C3_call_tool_errors_are_data (env : gmap string string)
    (drivers : list string) (db : pyodbc) (config : db_config)
    (query : string) (arguments : gmap string string) :
  get_db_config env drivers = Ok config ->
  arguments !! "query" = Some query -> query <> "" ->
  exists contents log,
    run (call_tool env drivers db (get_command env) arguments) = (Ok contents, log)
    /\ forall e log',
        run (call_tool_body db config query) = (Raise e, log') ->
        contents = [text_content ("Error executing query: " +:+ exn_str e)].
Proof.
  intros Hcfg Hq Hne. rewrite (call_tool_guarded db env drivers config query) by done.
  destruct (run (call_tool_body db config query)) as [[contents|e] log].
  - exists contents, log. split; [done|]. by intros e log' [=].
  - eexists _, log. split; [reflexivity|]. by intros e' log' [= <- _].
Qed.

Lemma C3_call_tool_errors_are_data_witness :
  exists contents log,
    run (call_tool Ex.env_sql Ex.drivers Ex.db_rejecting "execute_sql"
                   Ex.args_select) = (Ok contents, log)
    /\ contents = [text_content "Error executing query: 42000 syntax error"].
Proof.
  destruct (C3_call_tool_errors_are_data Ex.env_sql Ex.drivers Ex.db_rejecting
              Ex.cfg_sql "SELECT 1 AS x" Ex.args_select
              eq_refl eq_refl ltac:(discriminate))
    as (contents & log & Hrun & Herr).
  exists contents, log. split; [exact Hrun|].
  exact (Herr (DatabaseError "42000 syntax error") _ eq_refl).
Defined.

(** C3 (as stated) fails: configuration is resolved before the guarded
    block, and its failure is raised to the caller although the tool name
    is the configured one and the query is present. *)
Lemma C3_counterexample :
  get_command Ex.env_sql = "execute_sql"
  /\ run (call_tool Ex.env_sql Ex.drivers_without_sql_server Ex.db_orders
                    "execute_sql" Ex.args_select)
     = (Raise no_driver, []).
Proof. split; reflexivity. Qed.

(** C5 (as amended).  Once configuration has resolved, listing returns
    normally whatever the database does, and with the empty list whenever
    the guarded block raises. *)
Theorem C5_list_resources_degrades (env : gmap string string)
    (drivers : list string) (db : pyodbc) (types : mcp_types)
    (config : db_config) :
  get_db_config env drivers = Ok config ->
  exists resources log,
    run (list_resources env drivers db types) = (Ok resources, log)
    /\ forall e log',
        run (list_resources_body db types config) = (Raise e, log') ->
        resources = [].
Proof.
  intros Hcfg. unfold list_resources. unfold_M. rewrite Hcfg.
  destruct (list_resources_body db types config []) as [[resources|e] log].
  - exists resources, log. split; [done|]. by intros e log' [=].
  - exists [], log. by split.
Qed.

Lemma C5_list_resources_degrades_witness :
  run (list_resources Ex.env_sql Ex.drivers Ex.db_unreachable Ex.types)
  = (Ok [], []).
Proof.
  destruct (C5_list_resources_degrades Ex.env_sql Ex.drivers Ex.db_unreachable
              Ex.types Ex.cfg_sql eq_refl)
    as (resources & log & Hrun & Herr).
  rewrite Hrun.
  rewrite (Herr (DatabaseError "08001 cannot connect") [] eq_refl).
  injection Hrun as _ <-. reflexivity.
Defined.

(** C5 (as stated) fails: a failure of configuration resolution is raised,
    not turned into an empty list. *)
Lemma C5_counterexample :
  run (list_resources Ex.env_no_credentials Ex.drivers Ex.db_orders Ex.types)
  = (Raise missing_configuration, []).
Proof. reflexivity. Qed.

(** C9 (as amended).  Once configuration has resolved, a URI is rejected
    with the invalid-scheme error exactly when it does not start with
    mssql://.  After that prefix only the text up to the first slash counts:
    what follows it, "/data" or anything else or nothing, does not change
    the outcome, and a failure is reported as a database error. *)
Theorem C9_read_resource_uri (env : gmap string string) (drivers : list string)
    (db : pyodbc) (config : db_config) :
  get_db_config env drivers = Ok config ->
  (forall uri_str,
      Str.startswith "mssql://" uri_str = false ->
      run (read_resource env drivers db uri_str)
      = (Raise (ValueError ("Invalid URI scheme: " +:+ uri_str)), []))
  /\
  (forall table rest,
      Str.split "/" table = [table] ->
      run (read_resource env drivers db ("mssql://" +:+ table +:+ "/" +:+ rest))
      = run (read_resource env drivers db ("mssql://" +:+ table))
      /\ forall e log,
          run (read_resource env drivers db ("mssql://" +:+ table)) = (Raise e, log) ->
          exists msg, e = RuntimeError ("Database error: " +:+ msg)).
Proof.
  intros Hcfg. split.
  - intros uri_str Hs. by apply (read_resource_bad_scheme db env drivers config).
  - intros table rest Htable. rewrite !(read_resource_guarded db env drivers config) by done.
    change ("/" +:+ rest) with (String "/"%char rest).
    rewrite (split_part_then _ _ _ Htable), Htable. simpl. split; [done|].
    intros e log.
    destruct (run (read_resource_body db config table)) as [[?|e'] ?]; [done|].
    intros [= <- _]. eauto.
Qed.

Lemma C9_read_resource_uri_witness :
  run (read_resource Ex.env_sql Ex.drivers Ex.db_orders "http://Orders/data")
  = (Raise (ValueError "Invalid URI scheme: http://Orders/data"), [])
  /\ run (read_resource Ex.env_sql Ex.drivers Ex.db_orders "mssql://Orders/data")
     = run (read_resource Ex.env_sql Ex.drivers Ex.db_orders "mssql://Orders").
Proof.
  destruct (C9_read_resource_uri Ex.env_sql Ex.drivers Ex.db_orders Ex.cfg_sql eq_refl)
    as [Hbad Hgood].
  split.
  - exact (Hbad "http://Orders/data" eq_refl).
  - exact (proj1 (Hgood "Orders" "data" eq_refl)).
Defined.

(** C9 (as stated) fails: a URI without "/data", or with another path, is
    accepted and read like mssql://Orders/data; and a URI of the right
    shape with an invalid table name is rejected as a database error, not
    as an invalid scheme. *)
Lemma C9_counterexample :
  (run (read_resource Ex.env_sql Ex.drivers Ex.db_orders "mssql://Orders")).1
  = Ok ("Id,Name" +:+ nl +:+ "1,A")
  /\ (run (read_resource Ex.env_sql Ex.drivers Ex.db_orders
                         "mssql://Orders/schema/columns")).1
     = Ok ("Id,Name" +:+ nl +:+ "1,A")
  /\ (run (read_resource Ex.env_sql Ex.drivers Ex.db_orders "mssql://Or ders/data")).1
     = Raise (RuntimeError "Database error: Invalid table name: Or ders").
Proof. repeat split; reflexivity. Qed.

(** C4 (as amended).  [read_resource] and [call_tool] open at most one
    database connection per call and never close more than they opened.
    They open none when the call is stopped first: by configuration, by the
    scheme of the URI or the validation of the table name in
    [read_resource], by the tool name or the query argument in [call_tool].
    Whenever the guarded block runs to its end without an exception, exactly
    one connection was opened and closing it was the last thing done to the
    database. *)
Theorem C4_connection_discipline (env : gmap string string)
    (drivers : list string) (db : pyodbc) :
  (forall uri_str,
      let out := run (read_resource env drivers db uri_str) in
      disciplined out /\
      (is_ok (get_db_config env drivers) = false
       \/ Str.startswith "mssql://" uri_str = false
       \/ is_ok (validate_table_name
                   (hd "" (Str.split "/" (Str.drop 8 uri_str)))) = false ->
       opened out.2 = 0))
  /\
  (forall name arguments,
      let out := run (call_tool env drivers db name arguments) in
      opened out.2 <= 1 /\ closed out.2 <= opened out.2 /\
      (is_ok (get_db_config env drivers) = false
       \/ name <> get_command env
       \/ truthy (arguments !! "query") = false ->
       opened out.2 = 0) /\
      forall config query,
        get_db_config env drivers = Ok config ->
        name = get_command env ->
        arguments !! "query" = Some query -> query <> "" ->
        is_ok (run (call_tool_body db config query)).1 = true ->
        opened out.2 = 1 /\ closed out.2 = 1 /\ last out.2 = Some EvConnClose).
Proof.
  split.
  - intros uri_str out. subst out. split.
    2:{ intros Hstop. by rewrite (read_resource_stopped db env drivers uri_str Hstop). }
    unfold disciplined.
    destruct (read_resource_log db env drivers uri_str)
      as [Hnil | (config & table & Hlog & Hok)].
    + rewrite Hnil. split; [cbn; lia|]. split; [cbn; lia|].
      intros Hr. exfalso. revert Hnil Hr. unfold read_resource. unfold_M.
      destruct (get_db_config env drivers) as [config|e]; [|done].
      destruct (Str.startswith "mssql://" uri_str); [|done]. simpl.
      pose proof (read_resource_body_disciplined db config
                    (hd "" (Str.split "/" (Str.drop 8 uri_str)))) as (_ & _ & Hd).
      unfold run in Hd.
      destruct (read_resource_body db config _ []) as [[?|?] log]; [|done].
      simpl in *. intros -> _. by destruct (Hd eq_refl) as [Ho _].
    + rewrite Hlog, Hok. apply read_resource_body_disciplined.
  - intros name arguments out. subst out.
    assert (is_ok (get_db_config env drivers) = false
            \/ name <> get_command env
            \/ truthy (arguments !! "query") = false ->
            opened (run (call_tool env drivers db name arguments)).2 = 0)
      as Hzero.
    { intros Hstop. by rewrite (call_tool_stopped db env drivers name arguments Hstop). }
    destruct (call_tool_log db env drivers name arguments)
      as [Hnil | (config & query & Hcfg & Hq & Hne & -> & Hlog)].
    + rewrite Hnil in Hzero |- *. split; [cbn; lia|]. split; [cbn; lia|].
      split; [done|].
      intros config query Hcfg -> Hq Hne Hok. exfalso. revert Hnil.
      rewrite (call_tool_guarded db env drivers config query) by done.
      pose proof (call_tool_body_disciplined db config query) as (_ & _ & Hd).
      destruct (run (call_tool_body db config query)) as [[?|?] log]; [|done].
      simpl in *. intros ->. by destruct (Hd eq_refl) as [Ho _].
    + rewrite Hlog in Hzero |- *.
      pose proof (call_tool_body_disciplined db config query) as (H1 & H2 & H3).
      split; [done|]. split; [done|]. split; [done|].
      intros config' query' Hcfg' _ Hq' _ Hok.
      assert (config' = config) as -> by congruence.
      assert (query' = query) as -> by congruence.
      by apply H3.
Qed.

Lemma C4_connection_discipline_witness :
  let out := run (read_resource Ex.env_sql Ex.drivers Ex.db_orders "mssql://Orders/data") in
  let out' := run (call_tool Ex.env_sql Ex.drivers Ex.db_orders "execute_sql"
                             Ex.args_select) in
  let stopped := run (read_resource Ex.env_sql Ex.drivers Ex.db_orders
                                    "mssql://Order Details/data") in
  let stopped' := run (call_tool Ex.env_sql Ex.drivers Ex.db_orders "run_sql"
                                 Ex.args_select) in
  (opened out.2 = 1 /\ closed out.2 = 1 /\ last out.2 = Some EvConnClose)
  /\ (opened out'.2 = 1 /\ closed out'.2 = 1 /\ last out'.2 = Some EvConnClose)
  /\ opened stopped.2 = 0 /\ opened stopped'.2 = 0.
Proof.
  destruct (C4_connection_discipline Ex.env_sql Ex.drivers Ex.db_orders)
    as [Hread Hcall].
  split; [|split; [|split]].
  - exact (proj2 (proj2 (proj1 (Hread "mssql://Orders/data"))) eq_refl).
  - exact (proj2 (proj2 (proj2 (Hcall "execute_sql" Ex.args_select)))
             Ex.cfg_sql "SELECT 1 AS x" eq_refl eq_refl eq_refl
             ltac:(discriminate) eq_refl).
  - exact (proj2 (Hread "mssql://Order Details/data")
             (or_intror (or_intror eq_refl))).
  - apply (proj1 (proj2 (proj2 (Hcall "run_sql" Ex.args_select)))).
    right. left. discriminate.
Defined.

(** C4 (as stated) fails: a call stopped by the validation of the table
    name opens no connection at all; and when the database rejects the
    statement, the one connection that was opened is not closed by the
    handler, neither in [call_tool] nor in [read_resource]. *)
Lemma C4_counterexample :
  opened (run (read_resource Ex.env_sql Ex.drivers Ex.db_orders
                             "mssql://Or ders/data")).2 = 0
  /\ (let out := run (call_tool Ex.env_sql Ex.drivers Ex.db_rejecting "execute_sql"
                                Ex.args_select) in
      is_ok out.1 = true /\ opened out.2 = 1 /\ closed out.2 = 0)
  /\ (let out := run (read_resource Ex.env_sql Ex.drivers Ex.db_rejecting
                                    "mssql://Orders/data") in
      is_ok out.1 = false /\ opened out.2 = 1 /\ closed out.2 = 0).
Proof. repeat split; reflexivity. Qed.

(** ** The end-to-end examples of the specification *)

Example call_tool_select :
  (run (call_tool Ex.env_sql Ex.drivers Ex.db_orders "execute_sql" Ex.args_select)).1
  = Ok [text_content ("x" +:+ nl +:+ "1")].
Proof. reflexivity. Qed.

Example call_tool_delete :
  (run (call_tool Ex.env_sql Ex.drivers Ex.db_orders "execute_sql"
                  {["query" := "DELETE FROM t WHERE 1=0"]})).1
  = Ok [text_content "Query executed successfully. Rows affected: 0"].
Proof. reflexivity. Qed.

Example call_tool_unknown_tool :
  run (call_tool Ex.env_sql Ex.drivers Ex.db_orders "run_sql" Ex.args_select)
  = (Raise (ValueError "Unknown tool: run_sql"), []).
Proof. reflexivity. Qed.

Example read_resource_orders :
  (run (read_resource Ex.env_sql Ex.drivers Ex.db_orders "mssql://Orders/data")).1
  = Ok ("Id,Name" +:+ nl +:+ "1,A").
Proof. reflexivity. Qed.

Example list_resources_orders :
  (run (list_resources Ex.env_sql Ex.drivers Ex.db_orders Ex.types)).1
  = Ok [{| uri := "mssql://Orders/data"; name := "Table: Orders";
           mimeType := "text/plain"; description := "Data in table: Orders" |}].
Proof. reflexivity. Qed.

(* ===================================================================== *)
(** * Further properties of the code *)

(** ** More on validate_table_name *)

Section validate_more.

Lemma all_chars_app (p : ascii -> bool) (a b : string) :
  all_chars p (a +:+ b) = all_chars p a && all_chars p b.
Proof.
  induction a as [|c a IH]; [done|].
  rewrite str_app_cons. simpl. by rewrite IH, andb_assoc.
Qed.

Lemma all_chars_impl (p q : ascii -> bool) (s : string) :
  (forall c, p c = true -> q c = true) ->
  all_chars p s = true -> all_chars q s = true.
Proof.
  intros Hpq. induction s as [|c s IH]; [done|]. simpl.
  intros [Hc Hs]%andb_prop. by rewrite (Hpq c Hc), IH.
Qed.

Lemma all_word_all_chars (s : string) :
  Spec.all_word s = all_chars Chr.is_word s.
Proof. induction s as [|c s IH]; [done|]. simpl. by rewrite IH. Qed.

Lemma segment_name_chars (t : string) :
  Spec.is_segment t = true -> all_chars name_char t = true.
Proof.
  intros Ht%segment_all_word. rewrite all_word_all_chars in Ht.
  revert Ht. apply all_chars_impl. intros c Hc. unfold name_char. by rewrite Hc.
Qed.

Lemma unbracket_app (a b : string) :
  unbracket (a +:+ b) = unbracket a +:+ unbracket b.
Proof.
  induction a as [|c a IH]; [done|]. rewrite str_app_cons. simpl.
  destruct (Chr.eqb c "[" || Chr.eqb c "]"); [done|].
  by rewrite str_app_cons, IH.
Qed.

Lemma unbracket_name_chars (s : string) :
  all_chars name_char s = true -> unbracket s = s.
Proof.
  induction s as [|c s IH]; [done|]. simpl.
  intros [Hc Hs]%andb_prop. rewrite (IH Hs).
  assert (Chr.eqb c "[" || Chr.eqb c "]" = false) as ->; [|done].
  revert Hc. unfold name_char. by destruct c as [[] [] [] [] [] [] [] []].
Qed.

(** the two shapes of an accepted name and of its escaped form *)
Lemma validate_table_name_shape (s e : string) :
  validate_table_name s = Ok e ->
  (exists t tail_, s = t +:+ tail_ /\ Spec.is_segment t = true
                   /\ (tail_ = "" \/ tail_ = nl)
                   /\ e = "[" +:+ s +:+ "]")
  \/ (exists sch t tail_, s = (sch +:+ "." +:+ t) +:+ tail_
                          /\ Spec.is_segment sch = true /\ Spec.is_segment t = true
                          /\ (tail_ = "" \/ tail_ = nl)
                          /\ e = "[" +:+ sch +:+ "].[" +:+ (t +:+ tail_) +:+ "]").
Proof.
  intros Hv.
  assert (is_ok (validate_table_name s) = true) as Hok by (by rewrite Hv).
  apply validate_table_name_ok_iff in Hok as (body & tl & e0 & -> & Htl & Hid).
  revert Hv. unfold validate_table_name.
  destruct (Re.match_ Re.table_name (body +:+ tl)); [|done].
  destruct Hid as [t Ht | sch t Hs Ht].
  - rewrite (split_segment t tl Ht Htl). intros [= <-]. left. by exists t, tl.
  - rewrite (split_two_segments sch t tl Hs Ht Htl). intros [= <-].
    right. by exists sch, t, tl.
Qed.

End validate_more.

Lemma accepted_name_chars (s e : string) :
  validate_table_name s = Ok e -> all_chars name_char s = true.
Proof.
  assert (all_chars name_char "" = true /\ all_chars name_char nl = true
          /\ all_chars name_char "." = true) as (H0 & H1 & H2) by done.
  intros [(t & tl & -> & Ht & Htl & _) | (sch & t & tl & -> & Hs & Ht & Htl & _)]
    %validate_table_name_shape.
  - rewrite all_chars_app, (segment_name_chars t Ht).
    by destruct Htl as [-> | ->].
  - rewrite !all_chars_app, (segment_name_chars sch Hs), (segment_name_chars t Ht), H2.
    by destruct Htl as [-> | ->].
Qed.

(** X1.  The contract of the validator.  Every identifier of the grammar
    [table] or [schema.table] is accepted and comes back bracketed,
    segment by segment; a text is accepted exactly when it is such an
    identifier, possibly followed by one line feed; and whatever is rejected
    is rejected by a ValueError that quotes the text as it was given. *)
Theorem X1_validate_table_name_contract (s : string) :
  (forall e, Spec.identifier s e -> validate_table_name s = Ok e)
  /\ (is_ok (validate_table_name s) = true <->
      exists body tail_ e, s = body +:+ tail_ /\ (tail_ = "" \/ tail_ = nl)
                           /\ Spec.identifier body e)
  /\ (is_ok (validate_table_name s) = false ->
      validate_table_name s = Raise (ValueError ("Invalid table name: " +:+ s))).
Proof.
  split; [|split].
  - intros e. apply validate_table_name_accepts.
  - apply validate_table_name_ok_iff.
  - apply validate_table_name_error.
Qed.

Lemma X1_validate_table_name_contract_witness :
  validate_table_name "dbo.Orders" = Ok "[dbo].[Orders]"
  /\ validate_table_name "Orders; DROP TABLE Orders"
     = Raise (ValueError "Invalid table name: Orders; DROP TABLE Orders").
Proof.
  split.
  - apply (proj1 (X1_validate_table_name_contract "dbo.Orders")).
    by apply (Spec.id_schema_table "dbo" "Orders").
  - apply (proj2 (proj2 (X1_validate_table_name_contract
                           "Orders; DROP TABLE Orders"))).
    reflexivity.
Defined.

(** X2.  What gets through the validator is harmless and nothing is lost
    in escaping it: an accepted name holds word characters, dots and line
    feeds only (no bracket, quote, semicolon, blank or comment marker), and
    dropping the brackets of its escaped form gives the name back, so two
    different accepted names never share an escaped form. *)
Theorem X2_validate_table_name_safe (s e : string) :
  validate_table_name s = Ok e ->
  all_chars name_char s = true /\ unbracket e = s.
Proof.
  intros Hv. pose proof (accepted_name_chars s e Hv) as Hchars.
  split; [done|].
  apply validate_table_name_shape in Hv
    as [(t & tl & Hs & Ht & Htl & ->) | (sch & t & tl & Hs & Hsch & Ht & Htl & ->)].
  - rewrite !unbracket_app, (unbracket_name_chars s Hchars). simpl.
    by rewrite str_app_nil_r.
  - subst s. rewrite !all_chars_app in Hchars.
    apply andb_prop in Hchars as [[Hc1 [_ Hc2]%andb_prop]%andb_prop Hc3].
    rewrite !unbracket_app, (unbracket_name_chars sch Hc1),
      (unbracket_name_chars t Hc2), (unbracket_name_chars tl Hc3). simpl.
    by rewrite !str_app_nil_r, !str_app_assoc.
Qed.

Lemma X2_validate_table_name_safe_witness :
  all_chars name_char "dbo.Orders" = true /\ unbracket "[dbo].[Orders]" = "dbo.Orders".
Proof.
  apply (X2_validate_table_name_safe "dbo.Orders" "[dbo].[Orders]"). reflexivity.
Defined.

(** ** More on get_db_config *)

Section config_more.

Variable env : gmap string string.
Variable drivers : list string.

(** a resolved configuration starts with the first SQL Server driver, the
    host with its port if it has one, and the database *)
Lemma conn_parts_head (parts : list string) :
  conn_parts env drivers = Ok parts ->
  exists driver others rest,
    sql_server_drivers drivers = driver :: others
    /\ parts =
       ("DRIVER={" +:+ driver +:+ "}")
       :: ("SERVER=" +:+ resolved_server env
           +:+ (if truthy (Some (getenv_default env "MSSQL_PORT" "1433"))
                   && negb (Str.eqb (getenv_default env "MSSQL_PORT" "1433") "1433")
                   && negb (Str.startswith "(localdb)" (resolved_server env))
                then "," +:+ getenv_default env "MSSQL_PORT" "1433" else ""))
       :: ("DATABASE=" +:+ default "" (getenv env "MSSQL_DATABASE")) :: rest.
Proof.
  unfold conn_parts.
  destruct (sql_server_drivers drivers) as [|driver others]; [done|].
  set (port := getenv_default env "MSSQL_PORT" "1433").
  set (cond := truthy (Some port) && negb (Str.eqb port "1433")
               && negb (Str.startswith "(localdb)" (resolved_server env))).
  destruct (negb (truthy (getenv env "MSSQL_DATABASE"))); [done|].
  intros Heq. exists driver, others.
  destruct cond; rewrite ?str_app_nil_r;
    (destruct (use_windows_auth env);
     [|destruct (negb (truthy (getenv env "MSSQL_USER"))
                 || negb (truthy (getenv env "MSSQL_PASSWORD"))); [done|]]);
    destruct (is_azure _), (Str.eqb _ _); injection Heq as <-;
    eexists; (split; [reflexivity|reflexivity]).
Qed.

End config_more.

(** the outcome of resolution, check by check *)
Lemma get_db_config_status (env : gmap string string) (drivers : list string) :
  match sql_server_drivers drivers with
  | [] => get_db_config env drivers = Raise no_driver
  | _ :: _ =>
      if truthy (getenv env "MSSQL_DATABASE")
         && (use_windows_auth env
             || truthy (getenv env "MSSQL_USER")
                && truthy (getenv env "MSSQL_PASSWORD"))
      then is_ok (get_db_config env drivers) = true
      else get_db_config env drivers = Raise missing_configuration
  end.
Proof.
  destruct (sql_server_drivers drivers) as [|driver others] eqn:Hd.
  { unfold get_db_config, conn_parts. by rewrite Hd. }
  destruct (truthy (getenv env "MSSQL_DATABASE")) eqn:Hdb.
  2:{ unfold get_db_config, conn_parts. by rewrite Hd, Hdb. }
  destruct (use_windows_auth env) eqn:Hwin; simpl.
  - destruct (conn_parts_ok env drivers driver others Hd Hdb (or_introl Hwin))
      as (? & ? & Hparts & _).
    unfold get_db_config. by rewrite Hparts.
  - destruct (truthy (getenv env "MSSQL_USER")) eqn:Hu,
             (truthy (getenv env "MSSQL_PASSWORD")) eqn:Hp; simpl.
    1:{ destruct (conn_parts_ok env drivers driver others Hd Hdb
                    (or_intror (conj Hu Hp))) as (? & ? & Hparts & _).
        unfold get_db_config. by rewrite Hparts. }
    all: unfold get_db_config, conn_parts; by rewrite Hd, Hdb, Hwin, Hu, Hp.
Qed.

(** X3.  The outcome of configuration resolution, in the order of its
    checks: without a registered driver whose name contains "SQL Server" it
    raises the driver error whatever the environment holds; otherwise it
    raises the missing-configuration error when the database name is
    absent or empty, or when integrated authentication is off and the user
    or the password is absent or empty; otherwise it succeeds, with the
    host, the database name and the port of the environment in the
    metadata, and "Windows Auth" in place of the user under integrated
    authentication. *)
Theorem X3_get_db_config_outcome (env : gmap string string) (drivers : list string) :
  match sql_server_drivers drivers with
  | [] => get_db_config env drivers = Raise no_driver
  | _ :: _ =>
      if truthy (getenv env "MSSQL_DATABASE")
         && (use_windows_auth env
             || truthy (getenv env "MSSQL_USER")
                && truthy (getenv env "MSSQL_PASSWORD"))
      then exists cfg,
          get_db_config env drivers = Ok cfg
          /\ server cfg = resolved_server env
          /\ getenv env "MSSQL_DATABASE" = Some (database cfg)
          /\ port cfg = getenv_default env "MSSQL_PORT" "1433"
          /\ (if use_windows_auth env then user cfg = "Windows Auth"
              else getenv env "MSSQL_USER" = Some (user cfg))
      else get_db_config env drivers = Raise missing_configuration
  end.
Proof.
  pose proof (get_db_config_status env drivers) as H.
  destruct (sql_server_drivers drivers); [done|].
  destruct (truthy (getenv env "MSSQL_DATABASE")) eqn:Hdb; [|done].
  destruct (use_windows_auth env) eqn:Hwin; simpl in *.
  - revert H. unfold get_db_config. rewrite Hwin.
    destruct (conn_parts env drivers); [|done]. intros _.
    eexists. split; [reflexivity|]. simpl.
    by destruct (getenv env "MSSQL_DATABASE") as [[|]|].
  - destruct (truthy (getenv env "MSSQL_USER")) eqn:Hu; [|done].
    destruct (truthy (getenv env "MSSQL_PASSWORD")); [|done].
    revert H. unfold get_db_config. rewrite Hwin.
    destruct (conn_parts env drivers); [|done]. intros _.
    eexists. split; [reflexivity|]. simpl.
    destruct (getenv env "MSSQL_DATABASE") as [[|]|]; try done.
    by destruct (getenv env "MSSQL_USER") as [[|]|].
Qed.

(** X4.  The driver is the first registered one whose name contains
    "SQL Server": the connection string of a resolved configuration starts
    with it, whatever is registered after it. *)
Theorem X4_get_db_config_first_driver (env : gmap string string)
    (before after : list string) (d : string) (cfg : db_config) :
  Forall (fun x => Str.contains "SQL Server" x = false) before ->
  Str.contains "SQL Server" d = true ->
  get_db_config env (before ++ d :: after) = Ok cfg ->
  exists rest, conn_string cfg = "DRIVER={" +:+ d +:+ "};" +:+ rest.
Proof.
  intros Hbefore Hd (parts & Hparts & -> & _)%get_db_config_conn_parts.
  apply conn_parts_head in Hparts as (driver & others & rest & Hdrv & ->).
  assert (driver = d) as ->.
  { revert Hdrv. unfold sql_server_drivers. rewrite filter_app.
    assert (filter (fun x => Is_true (Str.contains "SQL Server" x)) before = [])
      as ->.
    { induction Hbefore as [|x l Hx _ IH]; [done|].
      rewrite filter_cons_False; [exact IH|]. rewrite Hx. by intros []. }
    rewrite filter_cons_True by (by rewrite Hd). by intros [= ->]. }
  eexists. change (Str.join ";" (?a :: ?b :: ?l))
    with (a +:+ ";" +:+ Str.join ";" (b :: l)).
  by rewrite !str_app_assoc.
Qed.

Lemma X4_get_db_config_first_driver_witness :
  exists rest, conn_string Ex.cfg_sql
               = "DRIVER={" +:+ "ODBC Driver 17 for SQL Server" +:+ "};" +:+ rest.
Proof.
  apply (X4_get_db_config_first_driver Ex.env_sql ["SQLite3 ODBC Driver"] []
           "ODBC Driver 17 for SQL Server" Ex.cfg_sql).
  - by repeat constructor.
  - reflexivity.
  - reflexivity.
Defined.

Section replace.

Lemma startswith_app_self (p s : string) : Str.startswith p (p +:+ s) = true.
Proof.
  induction p as [|a p IH]; [done|]. rewrite str_app_cons. simpl.
  by rewrite chr_eqb_refl, IH.
Qed.

Lemma remove_from_skip (old x s : string) :
  Str.remove_from old (String.length x) (x +:+ s) = Str.remove_from old 0 s.
Proof. induction x as [|c x IH]; [done|]. rewrite str_app_cons. simpl. exact IH. Qed.

(** [replace] drops an occurrence at the front and goes on behind it *)
Lemma remove_front (old s : string) :
  old <> "" -> Str.remove old (old +:+ s) = Str.remove old s.
Proof.
  destruct old as [|a old]; [done|]. intros _. unfold Str.remove.
  pose proof (startswith_app_self (String a old) s) as Hs.
  rewrite str_app_cons in Hs |- *.
  change (Str.remove_from (String a old) 0 (String a (old +:+ s)))
    with (if Str.startswith (String a old) (String a (old +:+ s))
          then Str.remove_from (String a old)
                 (String.length (String a old) - 1) (old +:+ s)
          else String a (Str.remove_from (String a old) 0 (old +:+ s))).
  rewrite Hs. replace (String.length (String a old) - 1) with (String.length old) by (simpl; lia). apply remove_from_skip.
Qed.

(** [replace] leaves a text without an occurrence as it is *)
Lemma remove_absent (old s : string) :
  Str.contains old s = false -> Str.remove old s = s.
Proof.
  unfold Str.contains, Str.remove. induction s as [|c s IH]; [done|].
  change (Str.find old (String c s))
    with (if Str.startswith old (String c s) then Some O
          else S <$> Str.find old s).
  change (Str.remove_from old 0 (String c s))
    with (if Str.startswith old (String c s)
          then Str.remove_from old (String.length old - 1) s
          else String c (Str.remove_from old 0 s)).
  destruct (Str.startswith old (String c s)); [done|].
  destruct (Str.find old s); [done|]. intros _. by rewrite IH.
Qed.

Lemma join_cons_tail (sep a : string) (l : list string) :
  Str.join sep (a :: l)
  = a +:+ match l with [] => "" | _ => sep +:+ Str.join sep l end.
Proof. destruct l; [|done]. simpl. by rewrite str_app_nil_r. Qed.

End replace.

(** X5.  A LocalDB host passes through unchanged and never gets a port:
    for MSSQL_SERVER = (localdb)\instance, with no further "(localdb)\"
    inside the instance name, a resolved configuration has that very host
    and its connection string goes from SERVER=(localdb)\instance straight
    to the database, whatever MSSQL_PORT is. *)
Theorem X5_get_db_config_localdb (env : gmap string string) (drivers : list string)
    (instance_name : string) (cfg : db_config) :
  getenv env "MSSQL_SERVER" = Some (localdb_prefix +:+ instance_name) ->
  Str.contains localdb_prefix instance_name = false ->
  get_db_config env drivers = Ok cfg ->
  server cfg = localdb_prefix +:+ instance_name
  /\ exists driver rest,
      conn_string cfg
      = "DRIVER={" +:+ driver +:+ "};SERVER=" +:+ localdb_prefix +:+ instance_name
        +:+ ";DATABASE=" +:+ rest.
Proof.
  intros Hsrv Hinst (parts & Hparts & -> & ->)%get_db_config_conn_parts.
  assert (resolved_server env = localdb_prefix +:+ instance_name) as Hres.
  { unfold resolved_server, getenv_default. unfold getenv in Hsrv. rewrite Hsrv.
    simpl default. rewrite startswith_app_self.
    by rewrite remove_front, remove_absent. }
  split; [done|].
  apply conn_parts_head in Hparts as (driver & others & rest & _ & ->).
  rewrite Hres.
  change (Str.startswith "(localdb)" (localdb_prefix +:+ instance_name)) with true.
  rewrite andb_false_r.
  rewrite str_app_nil_r.
  exists driver,
    (default "" (getenv env "MSSQL_DATABASE")
     +:+ match rest with [] => "" | _ => ";" +:+ Str.join ";" rest end).
  generalize (default "" (getenv env "MSSQL_DATABASE")). intros db.
  rewrite !join_cons_tail.
  generalize (match rest with [] => "" | _ => ";" +:+ Str.join ";" rest end).
  intros tail_.
  rewrite !str_app_assoc. by rewrite !str_app_cons, !str_app_nil_l.
Qed.

Lemma X5_get_db_config_localdb_witness :
  exists cfg,
    get_db_config Ex.env_localdb Ex.drivers = Ok cfg
    /\ server cfg = "(localdb)\MSSQLLocalDB"
    /\ exists driver rest,
        conn_string cfg
        = "DRIVER={" +:+ driver +:+ "};SERVER=" +:+ localdb_prefix +:+ "MSSQLLocalDB"
          +:+ ";DATABASE=" +:+ rest.
Proof.
  eexists. split; [reflexivity|].
  apply (X5_get_db_config_localdb Ex.env_localdb Ex.drivers "MSSQLLocalDB");
    reflexivity.
Defined.

(** X6.  MSSQL_ENCRYPT switches encryption off unless it reads "true" in
    some letter case: with any other value, "yes" and "1" included, a
    resolved configuration carries no encryption setting at all, on a
    cloud host as on any other. *)
Theorem X6_get_db_config_encrypt_not_true (env : gmap string string)
    (drivers : list string) (value : string) (cfg : db_config) :
  getenv env "MSSQL_ENCRYPT" = Some value ->
  Str.lower value <> "true" ->
  get_db_config env drivers = Ok cfg ->
  exists parts,
    conn_parts env drivers = Ok parts
    /\ conn_string cfg = Str.join ";" parts /\ Forall plain_part parts.
Proof.
  intros Henc Hval (parts & Hparts & -> & _)%get_db_config_conn_parts.
  exists parts. split; [done|]. split; [done|]. clear cfg.
  apply conn_parts_encryption in Hparts as (base & Hbase & ->).
  unfold getenv_default. unfold getenv in Henc. rewrite Henc. simpl default.
  apply String.eqb_neq in Hval. unfold Str.eqb. rewrite Hval.
  destruct (is_azure _); by rewrite app_nil_r.
Qed.

Lemma X6_get_db_config_encrypt_not_true_witness :
  exists cfg parts,
    get_db_config Ex.env_azure_encrypt_yes Ex.drivers = Ok cfg
    /\ conn_parts Ex.env_azure_encrypt_yes Ex.drivers = Ok parts
    /\ conn_string cfg = Str.join ";" parts /\ Forall plain_part parts.
Proof.
  eexists.
  destruct (X6_get_db_config_encrypt_not_true Ex.env_azure_encrypt_yes Ex.drivers
              "yes" _ eq_refl ltac:(discriminate) eq_refl)
    as (parts & Hparts & Hstr & Hplain).
  exists parts. split; [reflexivity|]. by repeat split.
Defined.

(** a name is not among the listed ones *)
Ltac not_listed :=
  rewrite ?elem_of_cons, ?elem_of_nil; intros ?; destruct_or?; done.

Section independence.

Variable drivers : list string.

Lemma agree_except_lookup (names : list string) (env1 env2 : gmap string string)
    (k : string) :
  agree_except names env1 env2 -> k ∉ names -> env1 !! k = env2 !! k.
Proof. intros H. apply H. Qed.

(** X7.  With integrated authentication on, MSSQL_USER and MSSQL_PASSWORD
    are ignored altogether: two environments that differ in nothing else
    resolve to the same outcome, connection string and metadata included. *)
Theorem X7_get_db_config_windows_auth_ignores_credentials
    (env1 env2 : gmap string string) :
  agree_except ["MSSQL_USER"; "MSSQL_PASSWORD"] env1 env2 ->
  use_windows_auth env1 = true ->
  get_db_config env1 drivers = get_db_config env2 drivers.
Proof.
  intros Hagree Hwin.
  assert (resolved_server env1 = resolved_server env2) as Hsrv.
  { unfold resolved_server, getenv_default. rewrite (Hagree "MSSQL_SERVER"); [done|not_listed]. }
  assert (use_windows_auth env2 = true) as Hwin2.
  { revert Hwin. unfold use_windows_auth, getenv_default.
    rewrite (Hagree "MSSQL_WINDOWS_AUTH"); [done|not_listed]. }
  unfold get_db_config, conn_parts, getenv, getenv_default.
  rewrite Hsrv, Hwin, Hwin2.
  rewrite (Hagree "MSSQL_DATABASE"), (Hagree "MSSQL_PORT"),
    (Hagree "MSSQL_ENCRYPT"); [done|not_listed..].
Qed.

(** the start-up line is a function of the outcome of resolution and of
    the variables other than the password *)
Lemma main_startup_line (env : gmap string string) :
  main_startup env drivers =
    match get_db_config env drivers with
    | Ok _ =>
        let port := getenv_default env "MSSQL_PORT" "1433" in
        Ok ("Database config: "
            +:+ (if truthy (Some port) && negb (Str.eqb port "1433")
                 then resolved_server env +:+ ":" +:+ port
                 else resolved_server env)
            +:+ "/" +:+ default "" (getenv env "MSSQL_DATABASE") +:+ " as "
            +:+ (if use_windows_auth env then "Windows Auth"
                 else default "" (getenv env "MSSQL_USER")))
    | Raise e => Raise e
    end.
Proof.
  unfold main_startup, get_db_config.
  by destruct (conn_parts env drivers).
Qed.

(** X8.  The line that [main] writes to the log at start-up does not
    depend on the password: two environments that differ only in
    MSSQL_PASSWORD, set and non-empty in both or in neither, give the same
    line, or the same start-up error. *)
Theorem X8_main_startup_hides_password (env1 env2 : gmap string string) :
  agree_except ["MSSQL_PASSWORD"] env1 env2 ->
  truthy (getenv env1 "MSSQL_PASSWORD") = truthy (getenv env2 "MSSQL_PASSWORD") ->
  main_startup env1 drivers = main_startup env2 drivers.
Proof.
  intros Hagree Hpw.
  assert (resolved_server env1 = resolved_server env2) as Hsrv.
  { unfold resolved_server, getenv_default. rewrite (Hagree "MSSQL_SERVER"); [done|not_listed]. }
  assert (use_windows_auth env1 = use_windows_auth env2) as Hwin.
  { unfold use_windows_auth, getenv_default.
    rewrite (Hagree "MSSQL_WINDOWS_AUTH"); [done|not_listed]. }
  assert (getenv env1 "MSSQL_DATABASE" = getenv env2 "MSSQL_DATABASE") as Hdb.
  { unfold getenv. apply Hagree. not_listed. }
  assert (getenv env1 "MSSQL_USER" = getenv env2 "MSSQL_USER") as Hu.
  { unfold getenv. apply Hagree. not_listed. }
  assert (getenv_default env1 "MSSQL_PORT" "1433"
          = getenv_default env2 "MSSQL_PORT" "1433") as Hport.
  { unfold getenv_default. rewrite (Hagree "MSSQL_PORT"); [done|not_listed]. }
  rewrite !main_startup_line, Hsrv, Hwin, Hdb, Hu, Hport.
  pose proof (get_db_config_status env1 drivers) as H1.
  pose proof (get_db_config_status env2 drivers) as H2.
  rewrite Hwin, Hdb, Hu, Hpw in H1.
  destruct (sql_server_drivers drivers); [by rewrite H1, H2|].
  destruct (truthy (getenv env2 "MSSQL_DATABASE")
            && (use_windows_auth env2
                || truthy (getenv env2 "MSSQL_USER")
                   && truthy (getenv env2 "MSSQL_PASSWORD"))).
  - by destruct (get_db_config env1 drivers), (get_db_config env2 drivers).
  - by rewrite H1, H2.
Qed.

End independence.

Lemma X8_main_startup_hides_password_witness :
  main_startup Ex.env_sql Ex.drivers
  = main_startup Ex.env_sql_other_password Ex.drivers
  /\ main_startup Ex.env_sql Ex.drivers
     = Ok "Database config: localhost/shop as app".
Proof.
  split; [|reflexivity].
  apply (X8_main_startup_hides_password Ex.drivers Ex.env_sql Ex.env_sql_other_password).
  - intros k Hk. unfold Ex.env_sql_other_password.
    rewrite lookup_insert_ne; [done|]. intros <-. apply Hk. rewrite !elem_of_cons. by left.
  - reflexivity.
Defined.

Lemma X7_get_db_config_windows_auth_ignores_credentials_witness :
  get_db_config Ex.env_windows Ex.drivers
  = get_db_config (<["MSSQL_USER" := "app"]> Ex.env_windows) Ex.drivers.
Proof.
  apply (X7_get_db_config_windows_auth_ignores_credentials Ex.drivers).
  - intros k Hk. rewrite lookup_insert_ne; [done|]. intros <-. apply Hk. rewrite !elem_of_cons. by left.
  - reflexivity.
Defined.

(** ** More on is_select_query *)

Section classifier_more.

(** a character other than the slash is no start of a block comment *)
Lemma strip_block_comments_cons (c : ascii) (s : string) :
  Chr.eqb c "/" = false ->
  strip_block_comments (String c s) = String c (strip_block_comments s).
Proof.
  intros Hc. unfold strip_block_comments, Re.sub. simpl.
  unfold Re.block_comment, Re.seq, Re.lit at 1. by rewrite Hc.
Qed.

(** outside a comment, a character other than the dash is kept *)
Lemma scan_line_comments_cons (c : ascii) (s : string) :
  Chr.eqb c "-" = false ->
  Spec.scan_line_comments false (String c s)
  = String c (Spec.scan_line_comments false s).
Proof.
  intros Hc. simpl. destruct (Chr.eqb c Chr.newline); [done|].
  rewrite Ascii.eqb_sym in Hc. unfold Chr.eqb in *. by rewrite Hc.
Qed.

Lemma strip_comments_plain_prefix (pre s : string) :
  all_chars plain_char pre = true ->
  strip_comments (pre +:+ s) = pre +:+ strip_comments s.
Proof.
  unfold strip_comments. rewrite !strip_line_comments_scan.
  unfold Spec.without_line_comments.
  induction pre as [|c pre IH]; [done|]. simpl.
  intros [[H1 H2]%andb_prop Hpre]%andb_prop.
  apply negb_true_iff in H1, H2.
  rewrite !str_app_cons, strip_block_comments_cons, scan_line_comments_cons by done.
  by rewrite IH.
Qed.

Lemma lstrip_spaces (ws s : string) :
  all_chars Chr.is_space ws = true -> Str.lstrip (ws +:+ s) = Str.lstrip s.
Proof.
  induction ws as [|c ws IH]; [done|]. rewrite str_app_cons.
  intros [Hc Hws]%andb_prop. simpl. rewrite Hc. by apply IH.
Qed.

Lemma take_token_word (w s : string) :
  all_chars not_space w = true ->
  Spec.take_token (w +:+ s) = w +:+ Spec.take_token s.
Proof.
  induction w as [|c w IH]; [done|]. rewrite !str_app_cons.
  intros [Hc Hw]%andb_prop. apply negb_true_iff in Hc.
  simpl. by rewrite Hc, IH.
Qed.

(** the first token of a text that starts, after white space, with a word *)
Lemma first_token_word (ws w s : string) :
  all_chars Chr.is_space ws = true -> all_chars not_space w = true ->
  w <> "" ->
  Spec.first_token (ws +:+ w +:+ s) = w +:+ Spec.take_token s.
Proof.
  intros Hws Hw Hne. unfold Spec.first_token. rewrite lstrip_spaces by done.
  rewrite <- (take_token_word w s Hw). f_equal.
  destruct w as [|d w]; [done|]. rewrite str_app_cons.
  apply andb_prop in Hw as [Hd _]. apply negb_true_iff in Hd.
  simpl. by rewrite Hd.
Qed.

(** a word that reads SELECT in some letter case is made of letters *)
Lemma select_word_chars (w target : string) :
  (forall d, In d (list_ascii_of_string target) ->
             In d (list_ascii_of_string "SELECT")) ->
  Spec.same_ignoring_case w target = true ->
  all_chars plain_char w = true /\ all_chars not_space w = true.
Proof.
  assert (forall c d : ascii,
             In d (list_ascii_of_string "SELECT") ->
             Chr.eqb (Chr.lower c) (Chr.lower d) = true ->
             plain_char c = true /\ not_space c = true) as Hchr.
  { intros c d Hd. simpl in Hd.
    destruct Hd as [<-|[<-|[<-|[<-|[<-|[<-|[]]]]]]];
      by destruct c as [[] [] [] [] [] [] [] []]. }
  revert target. induction w as [|c w IH]; intros [|d target] Hin; try done.
  simpl. intros [Hc Hw]%andb_prop.
  destruct (Hchr c d (Hin d (or_introl eq_refl)) Hc) as [-> ->].
  apply (IH target); [|done]. intros d' Hd'. apply Hin. by right.
Qed.

(** a word that is too long is a different word *)
Lemma same_ignoring_case_longer (w target : string) (c : ascii) (s : string) :
  Spec.same_ignoring_case w target = true ->
  Spec.same_ignoring_case (w +:+ String c s) target = false.
Proof.
  revert target. induction w as [|d w IH]; intros [|e target]; try done.
  rewrite str_app_cons. simpl. intros [-> Hw]%andb_prop. by apply IH.
Qed.

Lemma is_select_query_first_token (query : string) :
  is_select_query query
  = Spec.same_ignoring_case (Spec.first_token (strip_comments query)) "SELECT".
Proof.
  unfold is_select_query. by rewrite first_word_first_token, upper_is_SELECT.
Qed.

End classifier_more.

(** X9.  A statement that starts, after optional white space, with the word
    SELECT in any letter case, followed by white space or by nothing, is a
    SELECT query, whatever comes after: comments further on cannot change
    that. *)
Theorem X9_is_select_query_select_first (ws w : string) (c : ascii) (rest : string) :
  all_chars Chr.is_space ws = true ->
  Spec.same_ignoring_case w "SELECT" = true ->
  Chr.is_space c = true ->
  is_select_query (ws +:+ w) = true
  /\ is_select_query (ws +:+ w +:+ String c rest) = true.
Proof.
  intros Hws Hw Hc.
  destruct (select_word_chars w "SELECT" (fun _ H => H) Hw) as [Hplain Hword].
  assert (w <> "") as Hne by (by destruct w).
  assert (all_chars plain_char ws = true) as Hwsp.
  { revert Hws. apply all_chars_impl. intros d.
    by destruct d as [[] [] [] [] [] [] [] []]. }
  assert (plain_char c = true) as Hcp.
  { revert Hc. by destruct c as [[] [] [] [] [] [] [] []]. }
  rewrite !is_select_query_first_token. split.
  - rewrite <- (str_app_nil_r (ws +:+ w)), strip_comments_plain_prefix
      by (by rewrite all_chars_app, Hwsp, Hplain).
    rewrite str_app_assoc, first_token_word by done.
    change (strip_comments "") with "". simpl. by rewrite str_app_nil_r.
  - rewrite <- str_app_assoc.
    change (String c rest) with (String c "" +:+ rest).
    rewrite <- str_app_assoc.
    rewrite strip_comments_plain_prefix
      by (rewrite !all_chars_app, Hwsp, Hplain; simpl; by rewrite Hcp).
    rewrite !str_app_assoc, first_token_word by done.
    rewrite str_app_cons. simpl. rewrite Hc. by rewrite str_app_nil_r.
Qed.

Lemma X9_is_select_query_select_first_witness :
  is_select_query "  select" = true
  /\ is_select_query ("  select" +:+ String Chr.newline "-- all rows") = true.
Proof.
  apply (X9_is_select_query_select_first "  " "select" Chr.newline "-- all rows");
    reflexivity.
Defined.

(** X10.  The word SELECT glued to what follows is no SELECT: when the
    character right after it is neither white space nor the start of a
    comment, as in SELECT* or SELECT(1), the statement is classified as a
    write. *)
Theorem X10_is_select_query_select_glued (ws w : string) (c : ascii) (rest : string) :
  all_chars Chr.is_space ws = true ->
  Spec.same_ignoring_case w "SELECT" = true ->
  Chr.is_space c = false -> plain_char c = true ->
  is_select_query (ws +:+ w +:+ String c rest) = false.
Proof.
  intros Hws Hw Hc Hcp.
  destruct (select_word_chars w "SELECT" (fun _ H => H) Hw) as [Hplain Hword].
  assert (w <> "") as Hne by (by destruct w).
  assert (all_chars plain_char ws = true) as Hwsp.
  { revert Hws. apply all_chars_impl. intros d.
    by destruct d as [[] [] [] [] [] [] [] []]. }
  rewrite is_select_query_first_token.
  rewrite <- str_app_assoc.
  change (String c rest) with (String c "" +:+ rest).
  rewrite <- str_app_assoc.
  rewrite strip_comments_plain_prefix
    by (rewrite !all_chars_app, Hwsp, Hplain; simpl; by rewrite Hcp).
  rewrite !str_app_assoc, first_token_word by done.
  rewrite str_app_cons. simpl. rewrite Hc.
  by apply same_ignoring_case_longer.
Qed.

Lemma X10_is_select_query_select_glued_witness :
  is_select_query "SELECT* FROM Orders" = false.
Proof.
  apply (X10_is_select_query_select_glued "" "SELECT" "*" " FROM Orders"); reflexivity.
Defined.

(** ** More on the handlers *)

Section handlers_more.

Variable db : pyodbc.

Lemma list_resources_body_prefix (types : mcp_types) (config : db_config) :
  (run (list_resources_body db types config)).2
    `prefix_of` list_resources_sequence config.
Proof.
  unfold list_resources_body, list_resources_sequence. unfold_M.
  generalize (mapM (table_resource types)). intros build.
  repeat (next_outcome; simpl); by eexists.
Qed.

Lemma read_resource_body_prefix (config : db_config) (table : string) :
  match validate_table_name table with
  | Ok safe_table =>
      (run (read_resource_body db config table)).2
        `prefix_of` read_resource_sequence config safe_table
  | Raise e => run (read_resource_body db config table) = (Raise e, [])
  end.
Proof.
  unfold read_resource_body, read_resource_sequence, column_names. unfold_M.
  destruct (validate_table_name table); [|done].
  repeat (next_outcome; simpl); by eexists.
Qed.

Lemma call_tool_body_prefix (config : db_config) (query : string) :
  (run (call_tool_body db config query)).2 `prefix_of` call_tool_sequence config query.
Proof.
  unfold call_tool_body, call_tool_sequence, column_names. unfold_M.
  generalize (Ustr.contains (Str.codes "INFORMATION_SCHEMA.TABLES")
                            (Str.upper query)).
  intros mentions_tables.
  destruct (is_select_query query); simpl; [destruct mentions_tables|];
    repeat (next_outcome; simpl); by eexists.
Qed.

End handlers_more.

(** X11.  Whatever the database does, what [call_tool] does to it is an
    initial part of one fixed sequence: connect, open a cursor, execute the
    query text exactly as given, then fetch for a SELECT query and commit
    for any other, close the cursor, close the connection.  So a SELECT
    never commits, another statement is never fetched, and no statement
    but the given one is executed. *)
Theorem X11_call_tool_log_prefix (env : gmap string string) (drivers : list string)
    (db : pyodbc) (name : string) (arguments : gmap string string) :
  (run (call_tool env drivers db name arguments)).2 = []
  \/ exists config query,
      get_db_config env drivers = Ok config
      /\ arguments !! "query" = Some query
      /\ (run (call_tool env drivers db name arguments)).2
           `prefix_of` call_tool_sequence config query.
Proof.
  destruct (call_tool_log db env drivers name arguments)
    as [Hnil | (config & query & Hcfg & Hq & _ & _ & Hlog)]; [by left|].
  right. exists config, query. rewrite Hlog.
  split; [done|]. split; [done|]. apply call_tool_body_prefix.
Qed.

(** X12.  Whatever the database does, what [read_resource] does to it is an
    initial part of: connect, open a cursor, execute SELECT TOP 100 * FROM
    followed by the escaped form of a table name that passed
    [validate_table_name], fetch, close the cursor, close the connection.
    Nothing else is ever executed, and nothing is committed. *)
Theorem X12_read_resource_log_prefix (env : gmap string string)
    (drivers : list string) (db : pyodbc) (uri_str : string) :
  (run (read_resource env drivers db uri_str)).2 = []
  \/ exists config safe_table,
      get_db_config env drivers = Ok config
      /\ validate_table_name (hd "" (Str.split "/" (Str.drop 8 uri_str)))
         = Ok safe_table
      /\ (run (read_resource env drivers db uri_str)).2
           `prefix_of` read_resource_sequence config safe_table.
Proof.
  destruct (get_db_config env drivers) as [config|e] eqn:Hcfg.
  2:{ left. unfold read_resource. unfold_M. by rewrite Hcfg. }
  destruct (Str.startswith "mssql://" uri_str) eqn:Hs.
  2:{ left. by rewrite (read_resource_bad_scheme db env drivers config). }
  apply startswith_app in Hs as [rest ->].
  change (Str.drop 8 ("mssql://" +:+ rest)) with rest.
  rewrite (read_resource_guarded db env drivers config) by done.
  pose proof (read_resource_body_prefix db config (hd "" (Str.split "/" rest)))
    as Hbody.
  destruct (validate_table_name (hd "" (Str.split "/" rest))) as [safe|e].
  - right. exists config, safe. split; [done|]. split; [done|].
    by destruct (run (read_resource_body db config _)) as [[?|?] ?].
  - left. by rewrite Hbody.
Qed.

(** X13.  Whatever the database does, what [list_resources] does to it is an
    initial part of: connect, open a cursor, execute the catalogue query,
    fetch, close the cursor, close the connection. *)
Theorem X13_list_resources_log_prefix (env : gmap string string)
    (drivers : list string) (db : pyodbc) (types : mcp_types) :
  (run (list_resources env drivers db types)).2 = []
  \/ exists config,
      get_db_config env drivers = Ok config
      /\ (run (list_resources env drivers db types)).2
           `prefix_of` list_resources_sequence config.
Proof.
  unfold list_resources. unfold_M.
  destruct (get_db_config env drivers) as [config|e] eqn:Hcfg; [|by left].
  right. exists config. split; [done|].
  pose proof (list_resources_body_prefix db types config) as Hbody.
  unfold run in Hbody.
  by destruct (list_resources_body db types config []) as [[?|?] ?].
Qed.

(** X14.  Every handler resolves the configuration first: when resolution
    fails, [list_resources], [read_resource] and [call_tool] all raise its
    error without touching the database, whatever the URI, the tool name
    and the arguments are. *)
Theorem X14_handlers_raise_configuration_error (env : gmap string string)
    (drivers : list string) (db : pyodbc) (e : exn) :
  get_db_config env drivers = Raise e ->
  (forall types, run (list_resources env drivers db types) = (Raise e, []))
  /\ (forall uri_str, run (read_resource env drivers db uri_str) = (Raise e, []))
  /\ (forall name arguments,
        run (call_tool env drivers db name arguments) = (Raise e, [])).
Proof.
  intros Hcfg. unfold list_resources, read_resource, call_tool. unfold_M.
  by rewrite Hcfg.
Qed.

Lemma X14_handlers_raise_configuration_error_witness :
  run (list_resources Ex.env_no_credentials Ex.drivers Ex.db_orders Ex.types)
  = (Raise missing_configuration, [])
  /\ run (read_resource Ex.env_no_credentials Ex.drivers Ex.db_orders "not a uri")
     = (Raise missing_configuration, [])
  /\ run (call_tool Ex.env_no_credentials Ex.drivers Ex.db_orders "no tool" ∅)
     = (Raise missing_configuration, []).
Proof.
  destruct (X14_handlers_raise_configuration_error Ex.env_no_credentials Ex.drivers
              Ex.db_orders missing_configuration eq_refl) as (H1 & H2 & H3).
  split; [apply H1|]. split; [apply H2|apply H3].
Defined.

(** the two checks of [call_tool] that come before the guarded block *)
Lemma call_tool_guards (env : gmap string string) (drivers : list string)
    (db : pyodbc) (config : db_config) (name : string)
    (arguments : gmap string string) :
  get_db_config env drivers = Ok config ->
  (name <> get_command env ->
   run (call_tool env drivers db name arguments)
   = (Raise (ValueError ("Unknown tool: " +:+ name)), []))
  /\ (name = get_command env ->
      arguments !! "query" = None \/ arguments !! "query" = Some "" ->
      run (call_tool env drivers db name arguments)
      = (Raise (ValueError "Query is required"), [])).
Proof.
  intros Hcfg. unfold call_tool. unfold_M. rewrite Hcfg. split.
  - intros Hname%String.eqb_neq. unfold Str.eqb. by rewrite Hname.
  - intros -> Hq. unfold Str.eqb. rewrite String.eqb_refl.
    by destruct Hq as [-> | ->].
Qed.

(** X15.  With a configuration that resolves, [call_tool] checks the tool
    name, then the query: another name than the configured one raises
    "Unknown tool" even when the query is missing too; the configured name
    with a missing or empty query raises "Query is required"; in both cases
    the database is not touched. *)
Theorem X15_call_tool_rejects (env : gmap string string) (drivers : list string)
    (db : pyodbc) (config : db_config) (name : string)
    (arguments : gmap string string) :
  get_db_config env drivers = Ok config ->
  (name <> get_command env ->
   run (call_tool env drivers db name arguments)
   = (Raise (ValueError ("Unknown tool: " +:+ name)), []))
  /\ (name = get_command env ->
      arguments !! "query" = None \/ arguments !! "query" = Some "" ->
      run (call_tool env drivers db name arguments)
      = (Raise (ValueError "Query is required"), [])).
Proof. apply call_tool_guards. Qed.

Lemma X15_call_tool_rejects_witness :
  run (call_tool Ex.env_sql Ex.drivers Ex.db_orders "run_sql" ∅)
  = (Raise (ValueError "Unknown tool: run_sql"), [])
  /\ run (call_tool Ex.env_sql Ex.drivers Ex.db_orders "execute_sql" ∅)
     = (Raise (ValueError "Query is required"), []).
Proof.
  split.
  - apply (X15_call_tool_rejects Ex.env_sql Ex.drivers Ex.db_orders Ex.cfg_sql
             "run_sql" ∅ eq_refl). discriminate.
  - apply (X15_call_tool_rejects Ex.env_sql Ex.drivers Ex.db_orders Ex.cfg_sql
             "execute_sql" ∅ eq_refl); [reflexivity|]. left. reflexivity.
Defined.

(** X16.  The tool that [list_tools] advertises is the tool that [call_tool]
    accepts: [list_tools] returns exactly one tool, and with a
    configuration that resolves a call is rejected as an unknown tool
    exactly when its name is not the name of that tool. *)
Theorem X16_list_tools_names_the_tool (env : gmap string string)
    (drivers : list string) (db : pyodbc) (config : db_config) :
  get_db_config env drivers = Ok config ->
  exists tool,
    list_tools env = [tool]
    /\ forall name arguments,
        (run (call_tool env drivers db name arguments)).1
        = Raise (ValueError ("Unknown tool: " +:+ name))
        <-> name <> tool_name tool.
Proof.
  intros Hcfg. eexists. split; [reflexivity|]. simpl tool_name.
  intros name arguments. split.
  - intros Hrun ->. revert Hrun.
    destruct (arguments !! "query") as [[|c query]|] eqn:Hq.
    1,3: rewrite (proj2 (call_tool_guards env drivers db config _ arguments Hcfg)
                    eq_refl) by auto; simpl; by rewrite str_app_cons.
    rewrite (call_tool_guarded db env drivers config (String c query)) by done.
    by destruct (run (call_tool_body db config (String c query))) as [[?|?] ?].
  - intros Hname.
    by rewrite (proj1 (call_tool_guards env drivers db config name arguments Hcfg)
                  Hname).
Qed.

Lemma X16_list_tools_names_the_tool_witness :
  exists tool,
    list_tools Ex.env_sql = [tool] /\ tool_name tool = "execute_sql"
    /\ (run (call_tool Ex.env_sql Ex.drivers Ex.db_orders "run_sql"
                       Ex.args_select)).1
       = Raise (ValueError "Unknown tool: run_sql").
Proof.
  destruct (X16_list_tools_names_the_tool Ex.env_sql Ex.drivers Ex.db_orders Ex.cfg_sql
              eq_refl) as (tool & Htool & Hcall).
  exists tool. split; [exact Htool|].
  injection Htool as <-. split; [reflexivity|].
  apply Hcall. discriminate.
Defined.

(** X17.  A table name that does not pass [validate_table_name] never
    reaches the database: with a configuration that resolves, reading
    mssql://<table>/... raises "Database error: Invalid table name:
    <table>" and no connection is opened. *)
Theorem X17_read_resource_invalid_table (env : gmap string string)
    (drivers : list string) (db : pyodbc) (config : db_config)
    (table rest : string) :
  get_db_config env drivers = Ok config ->
  Str.split "/" table = [table] ->
  is_ok (validate_table_name table) = false ->
  run (read_resource env drivers db ("mssql://" +:+ table +:+ "/" +:+ rest))
  = (Raise (RuntimeError ("Database error: Invalid table name: " +:+ table)), []).
Proof.
  intros Hcfg Htable Hbad.
  rewrite (read_resource_guarded db env drivers config) by done.
  change ("/" +:+ rest) with (String "/"%char rest).
  rewrite (split_part_then _ _ _ Htable). simpl hd.
  pose proof (read_resource_body_prefix db config table) as Hbody.
  rewrite (validate_table_name_error table Hbad) in Hbody. by rewrite Hbody.
Qed.

Lemma X17_read_resource_invalid_table_witness :
  run (read_resource Ex.env_sql Ex.drivers Ex.db_orders
                     "mssql://Order Details/data")
  = (Raise (RuntimeError "Database error: Invalid table name: Order Details"), []).
Proof.
  apply (X17_read_resource_invalid_table Ex.env_sql Ex.drivers Ex.db_orders Ex.cfg_sql
           "Order Details" "data"); reflexivity.
Defined.

(** ** Results as text, and listing followed by reading *)

Section text.

(** a part free of the separator stays in the first part *)
Lemma split_free_app (sep : ascii) (a b : string) :
  Str.split sep a = [a] ->
  Str.split sep (a +:+ b)
  = (a +:+ hd "" (Str.split sep b)) :: tail (Str.split sep b).
Proof.
  induction a as [|c a IH]; intros Ha.
  - rewrite !str_app_nil_l. pose proof (split_nonempty sep b).
    by destruct (Str.split sep b).
  - simpl in Ha. rewrite !str_app_cons. simpl.
    destruct (Chr.eqb c sep); [done|].
    pose proof (split_nonempty sep a).
    destruct (Str.split sep a) as [|h [|? ?]] eqn:E; [done| |done].
    injection Ha as ->. by rewrite IH.
Qed.

Lemma split_free_app_free (sep : ascii) (a b : string) :
  Str.split sep a = [a] -> Str.split sep b = [b] ->
  Str.split sep (a +:+ b) = [a +:+ b].
Proof. intros Ha Hb. by rewrite (split_free_app _ _ _ Ha), Hb. Qed.

Lemma split_free_join (sep : ascii) (glue : string) (l : list string) :
  Str.split sep glue = [glue] ->
  Forall (fun x => Str.split sep x = [x]) l ->
  Str.split sep (Str.join glue l) = [Str.join glue l].
Proof.
  intros Hglue. induction l as [|x [|y l] IH]; intros Hl; [done| |].
  - by inversion Hl.
  - inversion Hl as [|? ? Hx Hrest]; subst.
    change (Str.join glue (x :: y :: l)) with (x +:+ glue +:+ Str.join glue (y :: l)).
    apply split_free_app_free; [done|]. apply split_free_app_free; [done|].
    by apply IH.
Qed.

Lemma segment_no_slash (t : string) :
  Spec.is_segment t = true -> Str.split "/" t = [t].
Proof.
  intros Ht%segment_all_word. induction t as [|c t IH]; [done|].
  simpl in Ht. apply andb_prop in Ht as [Hc Ht]. simpl.
  assert (Chr.eqb c "/" = false) as ->.
  { revert Hc. by destruct c as [[] [] [] [] [] [] [] []]. }
  by rewrite (IH Ht).
Qed.

End text.

(** X18.  The text of a tabular result can be taken apart again: when no
    column name and no cell holds a line feed, splitting the text at line
    feeds gives the header line followed by one line per row, in the order
    of the rows. *)
Theorem X18_format_table_lines (columns : list string) (rows : list row) :
  Forall single_line columns ->
  Forall (Forall (fun c => single_line (cell_str c))) rows ->
  Str.split Chr.newline (format_table columns rows)
  = Str.join "," columns :: (format_row <$> rows).
Proof.
  intros Hcols Hrows. unfold format_table. apply split_join_lines; [done|].
  constructor.
  - by apply split_free_join.
  - apply Forall_fmap. eapply Forall_impl; [exact Hrows|].
    intros r Hr. unfold format_row. apply split_free_join; [done|].
    by apply Forall_fmap.
Qed.

Lemma X18_format_table_lines_witness :
  Str.split Chr.newline
    (format_table ["Id"; "Name"] [[CVal "int" "1"; CStr "A"]; [CVal "int" "2"; CStr "B"]])
  = ["Id,Name"; "1,A"; "2,B"].
Proof.
  apply (X18_format_table_lines ["Id"; "Name"]
           [[CVal "int" "1"; CStr "A"]; [CVal "int" "2"; CStr "B"]]);
    by repeat constructor.
Defined.

Section list_then_read.

(** when the validation accepts the URI of every row, the resources are
    built in the order of the rows, with the URLs it returns *)
Lemma mapM_table_resource (types : mcp_types) (tables : list row)
    (urls : list string) :
  Forall (fun r => r <> []) tables ->
  Forall2 (fun r url =>
             AnyUrl types ("mssql://" +:+ cell_str (hd (CStr "") r) +:+ "/data")
             = Ok url) tables urls ->
  exists resources,
    mapM (table_resource types) tables = Ok resources
    /\ uri <$> resources = urls.
Proof.
  intros Hrows Hurls. induction Hurls as [|r url tables urls Hurl _ IH].
  { by exists []. }
  inversion Hrows as [|? ? Hr Hrest]; subst.
  destruct (IH Hrest) as (resources & Hm & Huri).
  destruct r as [|c cells]; [done|]. simpl in Hurl.
  assert (table_resource types (c :: cells)
          = Ok {| uri := url; name := "Table: " +:+ cell_str c;
                  mimeType := "text/plain";
                  description := "Data in table: " +:+ cell_str c |}) as Hres.
  { unfold table_resource. simpl. by rewrite Hurl. }
  eexists.
  change (mapM (table_resource types) ((c :: cells) :: tables))
    with (y ← table_resource types (c :: cells);
          k ← mapM (table_resource types) tables; mret (y :: k)).
  rewrite Hres, Hm. split; [reflexivity|]. by rewrite fmap_cons, Huri.
Qed.

(** when the validation rejects the URI of one row, no list of resources
    is built *)
Lemma mapM_table_resource_rejected (types : mcp_types) (tables : list row)
    (r : row) (e : exn) :
  Forall (fun r => r <> []) tables ->
  r ∈ tables ->
  AnyUrl types ("mssql://" +:+ cell_str (hd (CStr "") r) +:+ "/data") = Raise e ->
  exists e', mapM (table_resource types) tables = Raise e'.
Proof.
  intros Hrows Hin Hbad. induction Hrows as [|r0 tables Hr0 Hrest IH].
  { by apply elem_of_nil in Hin. }
  destruct r0 as [|c cells]; [done|].
  change (mapM (table_resource types) ((c :: cells) :: tables))
    with (y ← table_resource types (c :: cells);
          k ← mapM (table_resource types) tables; mret (y :: k)).
  assert (table_resource types (c :: cells)
          = url ← AnyUrl types ("mssql://" +:+ cell_str c +:+ "/data");
            Ok {| uri := url; name := "Table: " +:+ cell_str c;
                  mimeType := "text/plain";
                  description := "Data in table: " +:+ cell_str c |}) as ->
    by done.
  destruct (AnyUrl types ("mssql://" +:+ cell_str c +:+ "/data")) as [url|e0]
    eqn:Hurl; [|by exists e0].
  apply elem_of_cons in Hin as [->|Hin].
  { simpl in Hbad. congruence. }
  destruct (IH Hin) as [e' ->]. by exists e'.
Qed.

Lemma mapM_row_first (names : list string) (tables : list row) :
  Forall2 (fun r n => exists cells, r = CStr n :: cells) tables names ->
  mapM row_first tables = Ok (CStr <$> names).
Proof.
  induction 1 as [|r n tables names [cells ->] _ IH]; [done|].
  simpl. by rewrite IH.
Qed.

Lemma all_str_from_CStr (index : nat) (names : list string) :
  all_str_from index (CStr <$> names) = Ok names.
Proof.
  revert index. induction names as [|n names IH]; intros index; [done|].
  simpl. by rewrite IH.
Qed.

End list_then_read.

(** X19.  On a database that answers, [list_resources] goes by the
    validation of the URIs it builds, mssql://<first cell of the row>/data
    for every row fetched.  When every one of them is accepted, it returns
    one resource per row, in the order of the rows, with the URLs the
    validation returned, and closes what it opened.  When one of them is
    rejected, it returns the empty list, and neither the cursor nor the
    connection is closed. *)
Theorem X19_list_resources_lists_tables (env : gmap string string)
    (drivers : list string) (db : pyodbc) (types : mcp_types)
    (config : db_config) (tables : list row) :
  get_db_config env drivers = Ok config ->
  serves db config list_tables_sql tables ->
  Forall (fun r => r <> []) tables ->
  (forall urls,
      Forall2 (fun r url =>
                 AnyUrl types
                   ("mssql://" +:+ cell_str (hd (CStr "") r) +:+ "/data")
                 = Ok url) tables urls ->
      exists resources,
        run (list_resources env drivers db types)
        = (Ok resources, list_resources_sequence config)
        /\ uri <$> resources = urls)
  /\ (forall r e,
        r ∈ tables ->
        AnyUrl types ("mssql://" +:+ cell_str (hd (CStr "") r) +:+ "/data")
        = Raise e ->
        run (list_resources env drivers db types)
        = (Ok [], [EvConnect (conn_string config); EvCursor;
                   EvExecute list_tables_sql; EvFetchall])).
Proof.
  intros Hcfg (Hc & Hcur & Hex & Hf & _ & Hcc & Hclose) Hrows. split.
  - intros urls Hurls.
    destruct (mapM_table_resource types tables urls Hrows Hurls)
      as (resources & Hm & Huri).
    exists resources. split; [|done].
    unfold list_resources, list_resources_body. unfold_M.
    by rewrite Hcfg, Hc, Hcur, Hex, Hf, Hm, Hcc, Hclose.
  - intros r e Hin Hbad.
    destruct (mapM_table_resource_rejected types tables r e Hrows Hin Hbad)
      as [e' Hm].
    unfold list_resources, list_resources_body. unfold_M.
    by rewrite Hcfg, Hc, Hcur, Hex, Hf, Hm.
Qed.

Lemma X19_list_resources_lists_tables_witness :
  (exists resources,
      run (list_resources Ex.env_sql Ex.drivers Ex.db_orders Ex.types)
      = (Ok resources, list_resources_sequence Ex.cfg_sql)
      /\ uri <$> resources = ["mssql://Orders/data"])
  /\ run (list_resources Ex.env_sql Ex.drivers Ex.db_order_details Ex.types)
     = (Ok [], [EvConnect (conn_string Ex.cfg_sql); EvCursor;
                EvExecute list_tables_sql; EvFetchall]).
Proof.
  split.
  - apply (X19_list_resources_lists_tables Ex.env_sql Ex.drivers Ex.db_orders
             Ex.types Ex.cfg_sql [[CStr "Orders"]]);
      [reflexivity|by repeat split|by repeat constructor|].
    by repeat constructor.
  - apply (proj2 (X19_list_resources_lists_tables Ex.env_sql Ex.drivers
                    Ex.db_order_details Ex.types Ex.cfg_sql
                    [[CStr "Orders"]; [CStr "Order Details"]]
                    eq_refl ltac:(by repeat split) ltac:(by repeat constructor))
                 [CStr "Order Details"]
                 (ValidationError "1 validation error for Resource")).
    + apply elem_of_cons. right. apply elem_of_cons. by left.
    + reflexivity.
Defined.

(** X20.  Listing and reading fit together for plain names: when the first
    cell of a listed row is a name made of word characters only, and the
    validation leaves the URI built for it as it is, reading the URI of its
    resource executes SELECT TOP 100 * FROM [name] and, on a database that
    answers, returns the header and the rows as text and closes what it
    opened. *)
Theorem X20_read_resource_reads_listed_table (env : gmap string string)
    (drivers : list string) (db : pyodbc) (types : mcp_types)
    (config : db_config) (t : string) (columns : list string)
    (rows : list row) (table : row) (r : Resource) :
  get_db_config env drivers = Ok config ->
  Spec.is_segment t = true ->
  serves db config ("SELECT TOP 100 * FROM " +:+ "[" +:+ t +:+ "]") rows ->
  db_description db ("SELECT TOP 100 * FROM " +:+ "[" +:+ t +:+ "]") = Some columns ->
  cell_str <$> head table = Some t ->
  AnyUrl types ("mssql://" +:+ t +:+ "/data") = Ok ("mssql://" +:+ t +:+ "/data") ->
  table_resource types table = Ok r ->
  run (read_resource env drivers db (uri r))
  = (Ok (format_table columns rows),
     read_resource_sequence config ("[" +:+ t +:+ "]")).
Proof.
  intros Hcfg Ht (Hc & Hcur & Hex & Hf & _ & Hcc & Hclose) Hd Hhead Hurl Hr.
  destruct table as [|c cells]; [done|]. simpl in Hhead.
  injection Hhead as Hct. unfold table_resource in Hr. simpl in Hr.
  rewrite Hct, Hurl in Hr. simpl in Hr. injection Hr as <-. simpl uri.
  rewrite (read_resource_guarded db env drivers config) by done.
  change ("/data") with (String "/"%char "data").
  rewrite (split_part_then _ _ _ (segment_no_slash t Ht)). simpl hd.
  unfold read_resource_body, read_resource_sequence. unfold_M.
  rewrite (validate_table_name_accepts t _ (Spec.id_table t Ht)).
  by rewrite Hc, Hcur, Hex, Hd, Hf, Hcc, Hclose.
Qed.

Lemma X20_read_resource_reads_listed_table_witness :
  run (read_resource Ex.env_sql Ex.drivers Ex.db_orders "mssql://Orders/data")
  = (Ok (format_table ["Id"; "Name"] [[CVal "int" "1"; CStr "A"]]),
     read_resource_sequence Ex.cfg_sql "[Orders]").
Proof.
  apply (X20_read_resource_reads_listed_table Ex.env_sql Ex.drivers Ex.db_orders
           Ex.types Ex.cfg_sql "Orders" ["Id"; "Name"] [[CVal "int" "1"; CStr "A"]]
           [CStr "Orders"]
           {| uri := "mssql://Orders/data"; name := "Table: Orders";
              mimeType := "text/plain"; description := "Data in table: Orders" |});
    try reflexivity. by repeat split.
Defined.

(** X21.  What [call_tool] answers on a database that serves the query: for
    a statement that is no SELECT query, the transaction is committed and
    the text is "Query executed successfully. Rows affected: " followed by
    the row count of the cursor; for a SELECT query that does not mention
    INFORMATION_SCHEMA.TABLES, nothing is committed and the text is the
    header line and the rows.  In both cases the connection is closed. *)
Theorem X21_call_tool_answers (env : gmap string string) (drivers : list string)
    (db : pyodbc) (config : db_config) (query : string)
    (arguments : gmap string string) (rows : list row) :
  get_db_config env drivers = Ok config ->
  arguments !! "query" = Some query -> query <> "" ->
  serves db config query rows ->
  (is_select_query query = false ->
   run (call_tool env drivers db (get_command env) arguments)
   = (Ok [text_content ("Query executed successfully. Rows affected: "
                        +:+ Str.of_Z (db_rowcount db query))],
      call_tool_sequence config query))
  /\ (forall columns,
        is_select_query query = true ->
        Ustr.contains (Str.codes "INFORMATION_SCHEMA.TABLES") (Str.upper query)
        = false ->
        db_description db query = Some columns ->
        run (call_tool env drivers db (get_command env) arguments)
        = (Ok [text_content (format_table columns rows)],
           call_tool_sequence config query)).
Proof.
  intros Hcfg Hq Hne (Hc & Hcur & Hex & Hf & Hcommit & Hcc & Hclose).
  rewrite (call_tool_guarded db env drivers config query) by done.
  unfold call_tool_body, call_tool_sequence. unfold_M. split.
  - intros Hsel. by rewrite Hc, Hcur, Hex, Hsel, Hcommit, Hcc, Hclose.
  - intros columns Hsel Hinfo Hd.
    by rewrite Hc, Hcur, Hex, Hsel, Hinfo, Hd, Hf, Hcc, Hclose.
Qed.

Lemma X21_call_tool_answers_witness :
  run (call_tool Ex.env_sql Ex.drivers Ex.db_orders "execute_sql" Ex.args_delete)
  = (Ok [text_content "Query executed successfully. Rows affected: 0"],
     call_tool_sequence Ex.cfg_sql "DELETE FROM t WHERE 1=0")
  /\ run (call_tool Ex.env_sql Ex.drivers Ex.db_orders "execute_sql" Ex.args_select)
     = (Ok [text_content (format_table ["x"] [[CVal "int" "1"]])],
        call_tool_sequence Ex.cfg_sql "SELECT 1 AS x").
Proof.
  split.
  - apply (X21_call_tool_answers Ex.env_sql Ex.drivers Ex.db_orders Ex.cfg_sql
             "DELETE FROM t WHERE 1=0" Ex.args_delete
             [[CVal "int" "1"; CStr "A"]]);
      try reflexivity; [discriminate|by repeat split].
  - apply (X21_call_tool_answers Ex.env_sql Ex.drivers Ex.db_orders Ex.cfg_sql
             "SELECT 1 AS x" Ex.args_select [[CVal "int" "1"]]);
      try reflexivity; [discriminate|by repeat split].
Defined.

(** X22.  The table-listing shape: for a SELECT query whose text mentions
    INFORMATION_SCHEMA.TABLES in any letter case, the answer is a single
    column, the header Tables_in_<database> followed by the first cell of
    every row fetched; the column names and the other cells are dropped. *)
Theorem X22_call_tool_lists_tables (env : gmap string string) (drivers : list string)
    (db : pyodbc) (config : db_config) (query : string)
    (arguments : gmap string string) (tables : list row) (names : list string) :
  get_db_config env drivers = Ok config ->
  arguments !! "query" = Some query -> query <> "" ->
  serves db config query tables ->
  is_select_query query = true ->
  Ustr.contains (Str.codes "INFORMATION_SCHEMA.TABLES") (Str.upper query)
  = true ->
  Forall2 (fun r n => exists cells, r = CStr n :: cells) tables names ->
  run (call_tool env drivers db (get_command env) arguments)
  = (Ok [text_content
           (Str.join nl (("Tables_in_" +:+ database config) :: names))],
     call_tool_sequence config query).
Proof.
  intros Hcfg Hq Hne (Hc & Hcur & Hex & Hf & _ & Hcc & Hclose) Hsel Hinfo Hrows.
  rewrite (call_tool_guarded db env drivers config query) by done.
  unfold call_tool_body, call_tool_sequence. unfold_M.
  rewrite Hc, Hcur, Hex, Hsel, Hinfo, Hf. simpl.
  rewrite (mapM_row_first names tables Hrows), Hcc, Hclose.
  unfold all_str. simpl. by rewrite all_str_from_CStr.
Qed.

Lemma X22_call_tool_lists_tables_witness :
  run (call_tool Ex.env_sql Ex.drivers Ex.db_orders "execute_sql" Ex.args_list_tables)
  = (Ok [text_content ("Tables_in_shop" +:+ nl +:+ "Orders")],
     call_tool_sequence Ex.cfg_sql list_tables_sql).
Proof.
  apply (X22_call_tool_lists_tables Ex.env_sql Ex.drivers Ex.db_orders Ex.cfg_sql
           list_tables_sql Ex.args_list_tables [[CStr "Orders"]] ["Orders"]);
    try reflexivity; [discriminate|by repeat split|].
  repeat constructor. by exists [].
Defined.

(** The capital of the sharp s (0xdf) is SS: a query that spells the
    catalogue view with it mentions INFORMATION_SCHEMA.TABLES once it is
    upper-cased, and is answered in the table-listing shape. *)
Example upper_sharp_s :
  Str.upper ("select 1 from information_schema.table" +:+ String "223"%char "")
  = Str.codes "SELECT 1 FROM INFORMATION_SCHEMA.TABLESS"
  /\ Ustr.contains (Str.codes "INFORMATION_SCHEMA.TABLES")
       (Str.upper ("select 1 from information_schema.table"
                   +:+ String "223"%char ""))
     = true.
Proof. split; reflexivity. Qed.

(** ** A comment in front of a statement *)

Section block_comment.

Lemma str_length_app (a b : string) :
  String.length (a +:+ b) = String.length a + String.length b.
Proof. induction a as [|c a IH]; [done|]. rewrite str_app_cons. simpl. by rewrite IH. Qed.

Lemma sub_from_skip (m : Re.matcher) (x s : string) :
  Re.sub_from m (String.length x) (x +:+ s) = Re.sub_from m 0 s.
Proof. induction x as [|c x IH]; [done|]. rewrite str_app_cons. simpl. exact IH. Qed.

(** the lazy run stops at the first comment end *)
Lemma lazy_any_first_end (body s : string) :
  Str.contains "*/" body = false ->
  Re.lazy_any (Re.seq (Re.lit "*") (Re.lit "/") Some) (body +:+ "*/" +:+ s) = Some s.
Proof.
  unfold Str.contains. induction body as [|c body IH]; [done|].
  change (Str.find "*/" (String c body))
    with (if Str.startswith "*/" (String c body) then Some O
          else S <$> Str.find "*/" body).
  destruct (Str.startswith "*/" (String c body)) eqn:Hs; [done|].
  destruct (Str.find "*/" body) eqn:Hf; [done|]. intros _.
  rewrite str_app_cons. simpl Re.lazy_any.
  assert (Re.seq (Re.lit "*") (Re.lit "/") Some
            (String c (body +:+ "*/" +:+ s)) = None) as ->.
  { unfold Re.seq, Re.lit.
    destruct (Chr.eqb c "*") eqn:Hc; [|done].
    apply chr_eqb_eq in Hc as ->.
    destruct body as [|d body]; [done|]. rewrite str_app_cons.
    destruct (Chr.eqb d "/") eqn:Hd; [|done].
    apply chr_eqb_eq in Hd as ->. done. }
  by apply IH.
Qed.

Lemma sub_from_cons (m : Re.matcher) (c : ascii) (s : string) :
  Re.sub_from m 0 (String c s)
  = match m Some (String c s) with
    | Some rest =>
        Re.sub_from m (String.length (String c s) - String.length rest - 1) s
    | None => String c (Re.sub_from m 0 s)
    end.
Proof. reflexivity. Qed.

Lemma block_comment_match (body s : string) :
  Str.contains "*/" body = false ->
  Re.block_comment Some ("/*" +:+ body +:+ "*/" +:+ s) = Some s.
Proof.
  intros Hbody. rewrite !str_app_cons, str_app_nil_l.
  unfold Re.block_comment. unfold Re.seq at 1 2. unfold Re.lit at 1 2.
  rewrite !chr_eqb_refl. unfold Re.seq at 1. by apply lazy_any_first_end.
Qed.

Lemma strip_block_comments_leading (body s : string) :
  Str.contains "*/" body = false ->
  strip_block_comments ("/*" +:+ body +:+ "*/" +:+ s) = strip_block_comments s.
Proof.
  intros Hbody. unfold strip_block_comments, Re.sub.
  pose proof (block_comment_match body s Hbody) as Hm.
  change ("/*" +:+ body +:+ "*/" +:+ s)
    with (String "/" (String "*" (body +:+ "*/" +:+ s))) in Hm |- *.
  rewrite sub_from_cons, Hm.
  replace (String.length (String "/" (String "*" (body +:+ "*/" +:+ s)))
           - String.length s - 1)
    with (String.length (String "*" (body +:+ "*/"))).
  2:{ cbn [String.length]. rewrite !str_length_app. cbn [String.length]. lia. }
  replace (String "*" (body +:+ "*/" +:+ s))
    with (String "*" (body +:+ "*/") +:+ s).
  2:{ by rewrite str_app_cons, str_app_assoc. }
  apply sub_from_skip.
Qed.

End block_comment.

(** X23.  A block comment at the very start of a statement is invisible
    to the classifier: the statement is classified like the text that
    follows the first comment end. *)
Theorem X23_is_select_query_leading_comment (body s : string) :
  Str.contains "*/" body = false ->
  strip_comments ("/*" +:+ body +:+ "*/" +:+ s) = strip_comments s
  /\ is_select_query ("/*" +:+ body +:+ "*/" +:+ s) = is_select_query s.
Proof.
  intros Hbody. unfold is_select_query, strip_comments.
  by rewrite (strip_block_comments_leading body s Hbody).
Qed.

Lemma X23_is_select_query_leading_comment_witness :
  Str.contains "*/" " all of them " = false
  /\ strip_comments "/* all of them */ SELECT * FROM Orders"
     = strip_comments " SELECT * FROM Orders"
  /\ is_select_query "/* all of them */ SELECT * FROM Orders"
     = is_select_query " SELECT * FROM Orders".
Proof.
  split; [reflexivity|].
  apply (X23_is_select_query_leading_comment " all of them " " SELECT * FROM Orders").
  reflexivity.
Defined.

(** ** The port, and a line comment in front of a statement *)

(** X24.  The port goes into the connection string only when it is worth
    saying: for a host that is no LocalDB instance, a resolved
    configuration names the host followed by a comma and the value of
    MSSQL_PORT when that value is neither empty nor "1433", and the bare
    host otherwise; the database comes right after. *)
Theorem X24_get_db_config_port (env : gmap string string) (drivers : list string)
    (p : string) (cfg : db_config) :
  getenv env "MSSQL_PORT" = Some p ->
  Str.startswith "(localdb)" (resolved_server env) = false ->
  get_db_config env drivers = Ok cfg ->
  exists driver rest,
    conn_string cfg
    = "DRIVER={" +:+ driver +:+ "};SERVER=" +:+ server cfg
      +:+ (if Str.eqb p "" || Str.eqb p "1433" then "" else "," +:+ p)
      +:+ ";DATABASE=" +:+ rest.
Proof.
  intros Hport Hhost (parts & Hparts & -> & ->)%get_db_config_conn_parts.
  apply conn_parts_head in Hparts as (driver & others & rest & _ & ->).
  unfold getenv_default. unfold getenv in Hport. rewrite Hport, Hhost.
  simpl default. rewrite andb_true_r.
  assert (truthy (Some p) && negb (Str.eqb p "1433")
          = negb (Str.eqb p "" || Str.eqb p "1433")) as ->.
  { by destruct p. }
  generalize (Str.eqb p "" || Str.eqb p "1433"). intros b.
  exists driver,
    (default "" (env !! "MSSQL_DATABASE")
     +:+ match rest with [] => "" | _ => ";" +:+ Str.join ";" rest end).
  unfold getenv.
  generalize (default "" (env !! "MSSQL_DATABASE")). intros db.
  rewrite !join_cons_tail.
  generalize (match rest with [] => "" | _ => ";" +:+ Str.join ";" rest end).
  intros tail_.
  generalize (resolved_server env). intros host.
  destruct b; simpl negb; cbv iota.
  - rewrite !str_app_assoc. by rewrite !str_app_cons, !str_app_nil_l.
  - rewrite !str_app_assoc. by rewrite !str_app_cons, !str_app_nil_l.
Qed.

Lemma X24_get_db_config_port_witness :
  exists cfg,
    get_db_config (<["MSSQL_PORT" := "1434"]> Ex.env_onprem) Ex.drivers = Ok cfg
    /\ exists driver rest,
        conn_string cfg
        = "DRIVER={" +:+ driver +:+ "};SERVER=" +:+ "db01" +:+ ",1434"
          +:+ ";DATABASE=" +:+ rest.
Proof.
  eexists. split; [reflexivity|].
  apply (X24_get_db_config_port (<["MSSQL_PORT" := "1434"]> Ex.env_onprem)
           Ex.drivers "1434"); reflexivity.
Defined.

Section line_comment_front.

Lemma strip_block_comments_no_slash (pre s : string) :
  all_chars (fun c => negb (Chr.eqb c "/")) pre = true ->
  strip_block_comments (pre +:+ s) = pre +:+ strip_block_comments s.
Proof.
  induction pre as [|c pre IH]; [done|]. simpl.
  intros [Hc Hpre]%andb_prop. apply negb_true_iff in Hc.
  rewrite !str_app_cons, strip_block_comments_cons by done. by rewrite IH.
Qed.

Lemma scan_in_comment (text s : string) :
  all_chars (fun c => negb (Chr.eqb c Chr.newline)) text = true ->
  Spec.scan_line_comments true (text +:+ String Chr.newline s)
  = String Chr.newline (Spec.scan_line_comments false s).
Proof.
  induction text as [|c text IH].
  - by intros _; rewrite str_app_nil_l.
  - cbn [all_chars]. intros [Hc Htext]%andb_prop. apply negb_true_iff in Hc.
    rewrite ?str_app_cons. cbn [Spec.scan_line_comments]. rewrite Hc. by apply IH.
Qed.

Lemma strip_comments_line_comment_front (text s : string) :
  all_chars (fun c => negb (Chr.eqb c "/") && negb (Chr.eqb c Chr.newline)) text
  = true ->
  strip_comments ("--" +:+ text +:+ String Chr.newline s)
  = String Chr.newline (strip_comments s).
Proof.
  intros Htext.
  assert (all_chars (fun c => negb (Chr.eqb c "/")) text = true) as H1.
  { revert Htext. apply all_chars_impl. by intros c [? _]%andb_prop. }
  assert (all_chars (fun c => negb (Chr.eqb c Chr.newline)) text = true) as H2.
  { revert Htext. apply all_chars_impl. by intros c [_ ?]%andb_prop. }
  unfold strip_comments. rewrite !strip_line_comments_scan.
  unfold Spec.without_line_comments.
  change ("--" +:+ text +:+ String Chr.newline s)
    with (String "-" (String "-" (text +:+ String Chr.newline s))).
  rewrite !strip_block_comments_cons by done.
  change (String Chr.newline s) with (String Chr.newline "" +:+ s).
  rewrite <- str_app_assoc, strip_block_comments_no_slash
    by (by rewrite all_chars_app, H1).
  rewrite str_app_assoc.
  change (String Chr.newline "" +:+ strip_block_comments s)
    with (String Chr.newline (strip_block_comments s)).
  change (Spec.scan_line_comments false (String "-" (String "-" ?x)))
    with (Spec.scan_line_comments true x).
  by apply scan_in_comment.
Qed.

End line_comment_front.

(** X25.  A line comment in front of a statement is invisible to the
    classifier: when the first line is a [--] comment, with no slash in it,
    the statement is classified like the lines that follow. *)
Theorem X25_is_select_query_leading_line_comment (text s : string) :
  all_chars (fun c => negb (Chr.eqb c "/") && negb (Chr.eqb c Chr.newline)) text
  = true ->
  is_select_query ("--" +:+ text +:+ String Chr.newline s) = is_select_query s.
Proof.
  intros Htext. rewrite !is_select_query_first_token.
  rewrite (strip_comments_line_comment_front text s Htext).
  unfold Spec.first_token. by change (Str.lstrip (String Chr.newline ?x)) with (Str.lstrip x).
Qed.

Lemma X25_is_select_query_leading_line_comment_witness :
  is_select_query ("-- SELECT" +:+ String Chr.newline "UPDATE t SET x=1")
  = is_select_query "UPDATE t SET x=1".
Proof.
  apply (X25_is_select_query_leading_line_comment " SELECT" "UPDATE t SET x=1").
  reflexivity.
Defined.
